(* ===== verification/_CoqProject ===== *)
-Q . S2P
Prelude.v
JsValue.v
RegionIndex.v
Options.v
ChartSurface.v
Controller.v
ViewState.v
Lifecycle.v
Adapter.v
Clicks.v
Failure.v
