(* ===== verification/Prelude.v ===== *)
(** * A verification development for the drill-down map component (src/src/App.tsx)

    ** The program

    The repository is one React function component, [App], that shows a
    choropleth map of China through a charting engine and lets the user
    drill down into one province, 江西省.  All of it is in src/src/App.tsx:

    - lines 8-10: three boundary datasets are loaded ([chinaJson], [zjJson],
      [jxJson]);
    - lines 15-153 and 155-195: two configuration objects, [chinaOption] and
      [jxOption], handed unchanged to the engine;
    - lines 197-233: the table [nameToCode] from display names to region
      codes, read only by the click handler;
    - lines 235-265: the effect, which creates the chart, registers the
      national boundary, applies [chinaOption], subscribes a handler to the
      chart's [click] event (lines 242-254) and one to the canvas's [click]
      event (lines 256-259), and returns a clean-up (lines 260-263);
    - lines 13 and 267-269: the ref [echartsRef] and the [div] that carries
      it.

    The program keeps no state of its own: the view the user sees is the
    option the chart renders.  The engine (registry of boundaries, chart
    instance, event delivery) and React (when the effect and its clean-up
    run) are libraries the file only calls.

    ** The files, in dependency order

    - [Prelude] (this file): commands, that is functions from state to
      state, with their sequencing [;;]; [run], the delivery of a list of
      events to a handler, with the invariant and simulation principles
      every later file uses; commands that may throw ([fcmd], [;;;]);
      executable association lists tied to [gmap]; the hint database
      [chart]; the tactics [by_compute], [by_decide] and [case_tests].
    - [JsValue]: the JavaScript values of the file ([jsval]), the
      conversion to boolean of an [if] ([truthy]), and the property read
      [o[k]] on an object built by a literal ([js_get]), which falls back on
      the properties inherited from [Object.prototype].
    - [RegionIndex]: [nameToCode] as written, the test [known] of line 243,
      which is the only use the program makes of the table, and
      [RegionNameIndex], the finite map the literal denotes.  Theorem: the
      test is membership in the index up to the twelve property names an
      object literal inherits.
    - [Options]: [chinaOption] and [jxOption] field by field, and the
      boundary keys an engine reads from an option ([geo_map],
      [referenced_maps]).
    - [ChartSurface]: the engine, from the contract the specification
      gives for it: [world] is the registry [maps], the chart [myChart] and
      the log [calls]; [init], [registerMap], [setOption], [on],
      [getZr_on], [off], [dispose] are the calls the program makes.  A
      chart keeps the listeners of each channel in the order they were
      subscribed, and [dispatch] calls the listeners of a click's channel
      one after the other.  What neither the sources nor the contract fix
      is a parameter, given as an interface with its laws.  [OptionMode]
      is how [setOption] combines a new option with the one in place;
      [replace_mode] is the mode of the specification, and [Replacing]
      marks the theorems that need it.  [SurfaceMode] is what [on] does on
      a channel already in use, which listeners [off] removes and what
      [init] does on an element that carries a chart; its one law is that
      a subscription on an unused channel adds the listener.
    - [Controller]: the effect ([effect], with its guard on the ref), the
      handlers ([on_click], [on_zr_click]) and the clean-up ([cleanup]), in
      the order of the source.  Theorems, for every mode: the behaviour of
      each branch of each handler, calls included; the invariant [ready]
      of click delivery; that only the right datasets are ever registered
      and every boundary drawn is registered; that nothing happens after
      the clean-up.  For the replacing mode: the option each click leaves,
      the round trip by value, and that a click delivered twice is a click
      delivered once.
    - [ViewState]: the state machine of the specification ([ViewState],
      [spec_step], after the behaviour bullets of section 4.1), the
      abstraction [view_state] that reads the view off the engine, and the
      refinement: one delivered click moves the view as the machine
      moves, for the clicks in [covered].  The other clicks, those whose
      name is inherited from [Object.prototype], are shown not to be
      refined, in every state that shows a province.
    - [Lifecycle]: the schedule React gives the effect ([render],
      [unmount], [click] on a [page]) and the states the page can reach
      ([reachable], an inductive relation).  Theorems, by rule induction:
      the invariant of the life cycle, the refinement of the
      specification's machine over renders, removals and clicks, that the
      guard of the effect never fails, that every render resets the view,
      that charts are created and disposed of in pairs, that every
      [setOption] of the log follows the [registerMap] of its boundary,
      and, for the replacing mode, that the chart is always one of two
      values.
    - [Adapter]: the subscriptions of the specification, which replace
      ([onFeatureClick], [onBackgroundClick]), and [initialize] over
      them.  Theorem: on every page the life cycle reaches the effect is
      [initialize], for every [SurfaceMode]: the clean-up disposes of the
      chart before the effect runs again, so the effect only subscribes on
      unused channels.
    - [Clicks]: a click of the pointer as the clicks the two listeners
      receive, for the three orders an engine can deliver them in
      ([channel_order]), on the engine ([pointer_click]) and on the page
      ([user_step]); and [machine_step], the machine of the specification
      after the transition list of section 4.1, in which every click off
      the target leads to [National].  Theorems: with the canvas listener
      first the program is that machine for every name; with the chart
      listener first the province is never shown; otherwise every view
      stays within reach of the user, by clicks alone while the chart
      exists; the view depends on the last click that was not ignored;
      the log of a sequence of clicks is the calls of each click in turn.
    - [Failure]: the effect, the handlers and the clean-up as commands
      that may throw ([try_effect], [try_deliver], [try_cleanup]), the
      calls that throw being a parameter.  Theorems: a click that fails
      leaves the chart as it was and the engine ready; an effect that
      fails after [init] leaves a chart that the removal of the component
      does not dispose of.

    ** Conventions and bounds

    A JavaScript string is the [string] of the bytes of its UTF-8 encoding;
    equality of well-formed strings is the same in both encodings, and
    equality is the only string operation of the program.  [params.name]
    is a string; a missing name reads as the key [undefined], which the
    table does not have, so the model covers it.  A number literal is kept
    as a decimal, mantissa and scale, so the literal of the source can be
    read back; the program does no arithmetic.  Nothing in the program
    loops or recurses, and the recursion of the development is structural
    ([assoc], [js_path], [run]), so no definition needs fuel: every
    function is total and evaluates by [vm_compute].

    Section 4.1 of the specification states the controller twice, and the
    two statements differ on a click on a recognized region other than the
    target: the behaviour bullets say nothing changes, the transition list
    and testable property 2 say the national view is applied.  Both are
    modelled, the first as [spec_step] and the second as [machine_step],
    and each refinement theorem names the one it is about.

    ** What is not modelled

    The content of the boundary datasets, rendering, hit testing, zoom and
    pan are the engine's.  Which channels a click of the pointer reaches,
    and in which order, is the engine's too: [Controller], [ViewState] and
    [Lifecycle] hold for every sequence of clicks delivered to the two
    listeners, and [Clicks] states what each order of delivery shows,
    without choosing one.  How an engine merges a new option into the one
    in place is in neither the sources nor the specification: no merge
    function is modelled, and the theorems that need the option to be
    replaced assume [Replacing].  The timing of passive effects and the
    batching of renders are React's, and so is what happens to the tree
    after an effect has thrown: [Failure] stops at the page the failed
    render leaves and at its removal.  Which calls of the engine throw,
    and when, is a parameter; a call that throws is taken to leave the
    engine as it was, and what an engine leaves behind when it fails half
    way through a call is not modelled.  The stylesheet has no behaviour.
    No theorem is about termination: no function of the program loops or
    calls itself, and no handler schedules an event.

    ** Plan

    Faults in the clean-up at the level of the page; the options as typed
    records of the fields an engine reads. *)

From stdpp Require Export base tactics option list strings gmap fin_maps.

Declare Scope cmd_scope.
Delimit Scope cmd_scope with cmd.

Create HintDb chart discriminated.
Create Rewrite HintDb chart.

(** ** Commands

    A statement of the source that mutates the chart is a function from
    state to state; a block is the composition of its statements, in the
    order they are written. *)

Definition cmd (S : Type) : Type := S → S.

Definition skip {S : Type} : cmd S := λ s, s.

Definition seq {S : Type} (c1 c2 : cmd S) : cmd S := λ s, c2 (c1 s).

Notation "c1 ;; c2" := (seq c1 c2)
  (at level 100, c2 at level 200, right associativity) : cmd_scope.

(** [run step es] delivers the events [es], first to last, to the handler
    [step]: the event loop of a single-threaded program. *)
Definition run {E S : Type} (step : E → cmd S) (es : list E) : cmd S :=
  λ s, foldl (λ s e, step e s) s es.

(** ** Commands that may throw

    A call that throws ends the function that made it: the statements
    after it do not run, and the state is the one the call was made in.
    [c1 ;;; c2] runs [c2] if [c1] returned. *)

Inductive outcome : Set := Returned | Thrown.

#[export] Instance outcome_eq_dec : EqDecision outcome.
Proof. solve_decision. Defined.

Definition fcmd (S : Type) : Type := S → S * outcome.

Definition fskip {S : Type} : fcmd S := λ s, (s, Returned).

Definition lift {S : Type} (c : cmd S) : fcmd S := λ s, (c s, Returned).

Definition fseq {S : Type} (c1 c2 : fcmd S) : fcmd S :=
  λ s,
    match c1 s with
    | (s', Returned) => c2 s'
    | (s', Thrown) => (s', Thrown)
    end.

Notation "c1 ;;; c2" := (fseq c1 c2)
  (at level 100, c2 at level 200, right associativity) : cmd_scope.

(** ** Association lists

    An object literal is an association list in source order; [assoc] is
    the lookup of the first binding of a key. *)

Fixpoint assoc {A : Type} (l : list (string * A)) (k : string) : option A :=
  match l with
  | [] => None
  | (k', v) :: l' => if decide (k = k') then Some v else assoc l' k
  end.

(** The keys of an association list, in order. *)
Definition keys {A : Type} (l : list (string * A)) : list string := l.*1.

(** ** Tactics *)

(** Case analysis on every test of the goal, then clean-up. *)
Ltac case_tests :=
  repeat (case_decide || case_bool_decide || case_match); simplify_eq/=.

(** Close a goal on closed terms by evaluation. *)
Ltac by_compute := vm_compute; first [reflexivity | done | by intros [=]].

(** Close a decidable goal on closed terms by evaluating its decision. *)
Ltac by_decide := apply (bool_decide_unpack _); vm_compute; exact I.

(** ** Lemmas on commands and runs *)

Section commands.
Context {E S : Type}.
Implicit Types (c : cmd S) (step : E → cmd S) (es : list E) (s : S).

Lemma seq_assoc c1 c2 c3 : seq (seq c1 c2) c3 = seq c1 (seq c2 c3).
Proof. done. Qed.

Lemma run_nil step s : run step [] s = s.
Proof. done. Qed.

Lemma run_cons step e es s : run step (e :: es) s = run step es (step e s).
Proof. done. Qed.

Lemma run_app step es1 es2 s :
  run step (es1 ++ es2) s = run step es2 (run step es1 s).
Proof. apply foldl_app. Qed.

Lemma run_snoc step es e s : run step (es ++ [e]) s = step e (run step es s).
Proof. by rewrite run_app. Qed.

(** An invariant of every step is an invariant of every run. *)
Lemma run_invariant (P : S → Prop) step es s :
  (∀ e s, P s → P (step e s)) → P s → P (run step es s).
Proof.
  intros Hstep. revert s.
  induction es as [|e es IH]; intros s Hs; [done|].
  rewrite run_cons. by apply IH, Hstep.
Qed.

(** A step-wise simulation by a function [abs] into an abstract machine
    [astep], valid on the states of an invariant [P] and for the events of
    [Q], lifts to the runs of events of [Q]. *)
Lemma run_simulation {T : Type} (abs : S → T) (astep : E → cmd T)
    (P : S → Prop) (Q : E → Prop) step es s :
  (∀ e s, P s → P (step e s)) →
  (∀ e s, Q e → P s → abs (step e s) = astep e (abs s)) →
  Forall Q es → P s → abs (run step es s) = run astep es (abs s).
Proof.
  intros Hinv Hsim Hes. revert s.
  induction Hes as [|e es He _ IH]; intros s Hs; [done|].
  rewrite !run_cons, IH, Hsim; auto.
Qed.

(** Commands that return compose as commands. *)
Lemma fseq_lift (c1 c2 : cmd S) s :
  fseq (lift c1) (lift c2) s = lift (seq c1 c2) s.
Proof. done. Qed.

Lemma fseq_fskip_r (c : fcmd S) s : fseq c fskip s = c s.
Proof. unfold fseq, fskip. by destruct (c s) as [s' []]. Qed.

Lemma fseq_assoc (c1 c2 c3 : fcmd S) s :
  fseq (fseq c1 c2) c3 s = fseq c1 (fseq c2 c3) s.
Proof. unfold fseq. by destruct (c1 s) as [s1 []]. Qed.

(** A block whose first command returned goes on with the second. *)
Lemma fseq_returned (c1 c2 : fcmd S) s s' :
  c1 s = (s', Returned) → fseq c1 c2 s = c2 s'.
Proof. unfold fseq. by intros ->. Qed.

End commands.

(** ** Lemmas on association lists *)

Section assoc.
Context {A : Type}.
Implicit Types (l : list (string * A)) (k : string) (v : A).

(** The lookup in an association list is the lookup in the map the list
    denotes. *)
Lemma assoc_list_to_map l k :
  assoc l k = (list_to_map l : gmap string A) !! k.
Proof.
  induction l as [|[k' v] l IH]; [done|]. simpl. case_decide as Hk.
  - subst. by rewrite lookup_insert_eq.
  - by rewrite lookup_insert_ne.
Qed.

Lemma assoc_Some_elem_of l k v : assoc l k = Some v → (k, v) ∈ l.
Proof.
  rewrite assoc_list_to_map. apply elem_of_list_to_map_2.
Qed.

Lemma assoc_None l k : assoc l k = None ↔ k ∉ keys l.
Proof.
  rewrite assoc_list_to_map. symmetry. apply not_elem_of_list_to_map.
Qed.

Lemma elem_of_assoc l k v : NoDup (keys l) → (k, v) ∈ l → assoc l k = Some v.
Proof.
  intros. rewrite assoc_list_to_map. by apply elem_of_list_to_map_1.
Qed.

End assoc.

(** ** Lemmas on lists *)

(** A filter keeps a list all of whose elements pass. *)
Lemma filter_all {A} (P : A → Prop) `{!∀ x, Decision (P x)} (l : list A) :
  Forall P l → filter P l = l.
Proof.
  induction 1 as [|x l Hx _ IH]; [done|]. by rewrite filter_cons_True, IH.
Qed.

(** A property of every binding of a list holds of every binding of the
    map the list denotes. *)
Lemma list_to_map_Forall {A : Type} (P : string → A → Prop)
    (l : list (string * A)) k v :
  Forall (λ kv, P kv.1 kv.2) l →
  (list_to_map l : gmap string A) !! k = Some v → P k v.
Proof.
  intros Hl Hk%elem_of_list_to_map_2.
  by apply (proj1 (Forall_forall _ _) Hl (k, v)).
Qed.

#[export] Hint Rewrite @run_nil @run_cons @run_app : chart.
#[export] Hint Resolve assoc_Some_elem_of elem_of_assoc : chart.
