(* ===== verification/JsValue.v ===== *)
(** * JavaScript values

    The values the program builds and reads: the literals of [chinaOption],
    [jxOption] and [nameToCode] (src/src/App.tsx, lines 15-233), property
    reads such as [nameToCode[params.name]] (line 243) and the conversion to
    boolean that an [if] applies to its test (line 243). *)

From S2P Require Import Prelude.

Open Scope string_scope.

Declare Scope js_scope.
Delimit Scope js_scope with js.

(** A value.  A number is the decimal [mant / 10 ^ scale]; a function is
    one of the arrow functions of the source, which ignore their argument
    and return a string literal; [JBuiltin k] is the built-in of the runtime
    reached as property [k] of [Object.prototype]. *)
#[warnings="-register-all"]
Inductive jsval : Type :=
| JUndefined
| JNum (mant : Z) (scale : nat)
| JStr (s : string)
| JBool (b : bool)
| JArr (items : list jsval)
| JObj (fields : list (string * jsval))
| JFun (ret : string)
| JBuiltin (name : string).

Coercion JStr : string >-> jsval.
Coercion JBool : bool >-> jsval.

(** Literals, written as in the source: [num 20] is [20], [dec 11 1] is
    [1.1], and ["zoom" :-> dec 11 1] is the field [zoom: 1.1]. *)
Abbreviation num z := (JNum z%Z 0) (only parsing).
Abbreviation dec m s := (JNum m%Z s%nat) (only parsing).
Notation "k :-> v" := (@pair string jsval k%string v)
  (at level 70, only parsing) : js_scope.

(** By-value equality of two values is decidable. *)
#[export] Instance jsval_eq_dec : EqDecision jsval.
Proof.
  refine (fix go (a b : jsval) {struct a} : Decision (a = b) :=
    match a, b with
    | JUndefined, JUndefined => left _
    | JNum m s, JNum m' s' => cast_if_and (decide (m = m')) (decide (s = s'))
    | JStr s, JStr s' => cast_if (decide (s = s'))
    | JBool c, JBool c' => cast_if (decide (c = c'))
    | JArr x, JArr y => cast_if (@list_eq_dec _ go x y)
    | JObj x, JObj y => cast_if (@list_eq_dec _ (@prod_eq_dec _ _ _ go) x y)
    | JFun r, JFun r' => cast_if (decide (r = r'))
    | JBuiltin n, JBuiltin n' => cast_if (decide (n = n'))
    | _, _ => right _
    end); clear go; abstract congruence.
Defined.

(** The conversion [ToBoolean] that [if (v)] applies to [v]. *)
Definition truthy (v : jsval) : bool :=
  match v with
  | JUndefined => false
  | JNum m _ => bool_decide (m ≠ 0%Z)
  | JStr s => bool_decide (s ≠ "")
  | JBool b => b
  | JArr _ | JObj _ | JFun _ | JBuiltin _ => true
  end.

(** The property names every object created by a literal inherits from
    [Object.prototype]. *)
Definition object_prototype_keys : list string :=
  [ "constructor"; "hasOwnProperty"; "isPrototypeOf"; "propertyIsEnumerable";
    "toLocaleString"; "toString"; "valueOf"; "__proto__";
    "__defineGetter__"; "__defineSetter__";
    "__lookupGetter__"; "__lookupSetter__" ].

(** The property read [o[k]] on an object built by a literal: the own
    property, else the one inherited from [Object.prototype], else
    [undefined].  The program reads properties of objects only; the read
    is [undefined] on the other values. *)
Definition js_get (o : jsval) (k : string) : jsval :=
  match o with
  | JObj fields =>
      match assoc fields k with
      | Some v => v
      | None =>
          if decide (k ∈ object_prototype_keys) then JBuiltin k else JUndefined
      end
  | _ => JUndefined
  end.

(** The chain of reads [o.k1.k2...]. *)
Definition js_path (o : jsval) (path : list string) : jsval :=
  foldl js_get o path.

(** The string a value is, if it is one. *)
Definition as_string (v : jsval) : option string :=
  match v with
  | JStr s => Some s
  | _ => None
  end.

(** ** Properties of reads *)

Lemma js_get_own fields k v :
  assoc fields k = Some v → js_get (JObj fields) k = v.
Proof. intros H. simpl. by rewrite H. Qed.

Lemma js_get_inherited fields k :
  k ∉ keys fields → k ∈ object_prototype_keys →
  js_get (JObj fields) k = JBuiltin k.
Proof.
  intros Hk%assoc_None Hp. simpl. rewrite Hk. by rewrite decide_True.
Qed.

Lemma js_get_absent fields k :
  k ∉ keys fields → k ∉ object_prototype_keys →
  js_get (JObj fields) k = JUndefined.
Proof.
  intros Hk%assoc_None Hp. simpl. rewrite Hk. by rewrite decide_False.
Qed.

#[export] Hint Resolve js_get_own js_get_inherited js_get_absent : chart.
