(* ===== verification/RegionIndex.v ===== *)
(** * The name index

    The table [nameToCode] of src/src/App.tsx (lines 197-233) and the one
    use the program makes of it: the test [if (nameToCode[params.name])] of
    the click handler (line 243).  [RegionNameIndex] is the finite map the
    table denotes, the index the specification speaks of; the theorems
    relate the test of the code to membership in that index. *)

From S2P Require Import Prelude JsValue.

Open Scope string_scope.
Open Scope js_scope.

(** The object literal, in source order. *)
Definition nameToCode : jsval :=
  JObj [
    "中国" :-> num 100000;
    "北京市" :-> num 110000;
    "天津市" :-> num 120000;
    "河北省" :-> num 130000;
    "山西省" :-> num 140000;
    "内蒙古自治区" :-> num 150000;
    "辽宁省" :-> num 210000;
    "吉林省" :-> num 220000;
    "黑龙江省" :-> num 230000;
    "上海市" :-> num 310000;
    "江苏省" :-> num 320000;
    "浙江省" :-> num 330000;
    "安徽省" :-> num 340000;
    "福建省" :-> num 350000;
    "江西省" :-> num 360000;
    "山东省" :-> num 370000;
    "河南省" :-> num 410000;
    "湖北省" :-> num 420000;
    "湖南省" :-> num 430000;
    "广东省" :-> num 440000;
    "广西壮族自治区" :-> num 450000;
    "海南省" :-> num 460000;
    "重庆市" :-> num 500000;
    "四川省" :-> num 510000;
    "贵州省" :-> num 520000;
    "云南省" :-> num 530000;
    "西藏自治区" :-> num 540000;
    "陕西省" :-> num 610000;
    "甘肃省" :-> num 620000;
    "青海省" :-> num 630000;
    "宁夏回族自治区" :-> num 640000;
    "新疆维吾尔自治区" :-> num 650000;
    "台湾省" :-> num 710000;
    "香港特别行政区" :-> num 810000;
    "澳门特别行政区" :-> num 820000
  ].

(** The test of line 243, [nameToCode[params.name]] converted to boolean. *)
Definition known (name : string) : bool :=
  truthy (js_get nameToCode name).

(** The fields of an object value. *)
Definition fields_of (o : jsval) : list (string * jsval) :=
  match o with
  | JObj fields => fields
  | _ => []
  end.

(** The region code a field value is: an integer literal. *)
Definition code_of (v : jsval) : option Z :=
  match v with
  | JNum m 0 => Some m
  | _ => None
  end.

(** The bindings of the table as names and codes. *)
Definition region_codes : list (string * Z) :=
  omap (λ '(k, v), (k,.) <$> code_of v) (fields_of nameToCode).

(** The index: the finite map from display name to region code. *)
Definition RegionNameIndex : gmap string Z := list_to_map region_codes.

(** ** The table as data *)

Lemma code_of_Some v c : code_of v = Some c ↔ v = JNum c 0.
Proof. destruct v as [|? []| | | | | |]; naive_solver. Qed.

(** Reading a list of integer-literal fields and reading the codes
    extracted from it are the same lookup. *)
Lemma assoc_codes (fs : list (string * jsval)) k :
  Forall (λ kv, is_Some (code_of kv.2)) fs →
  assoc fs k =
    (λ c, JNum c 0) <$> assoc (omap (λ '(k, v), (k,.) <$> code_of v) fs) k.
Proof.
  induction 1 as [|[k' v] fs [c Hc] _ IH]; [done|].
  simpl in *. rewrite Hc. apply code_of_Some in Hc as ->.
  simpl. by case_decide.
Qed.

Lemma nameToCode_integers :
  Forall (λ kv, is_Some (code_of kv.2)) (fields_of nameToCode).
Proof. by_decide. Qed.

Lemma region_codes_nonzero :
  Forall (λ kv : string * Z, kv.2 ≠ 0%Z) region_codes.
Proof. by_decide. Qed.

Lemma region_codes_not_inherited :
  Forall (λ kv : string * Z, kv.1 ∉ object_prototype_keys) region_codes.
Proof. by_decide. Qed.

(** The value the read [nameToCode[name]] produces, for every [name]: the
    code of an indexed name, a built-in for the names every object
    inherits, [undefined] otherwise. *)
Lemma nameToCode_get name :
  js_get nameToCode name =
    match RegionNameIndex !! name with
    | Some c => JNum c 0
    | None =>
        if decide (name ∈ object_prototype_keys)
        then JBuiltin name else JUndefined
    end.
Proof.
  unfold RegionNameIndex, region_codes, js_get, nameToCode at 1.
  rewrite <-assoc_list_to_map.
  rewrite (assoc_codes _ _ nameToCode_integers).
  by destruct (assoc _ name).
Qed.

Lemma RegionNameIndex_nonzero name c :
  RegionNameIndex !! name = Some c → c ≠ 0%Z.
Proof.
  apply (list_to_map_Forall (λ _ c, c ≠ 0%Z)), region_codes_nonzero.
Qed.

Lemma RegionNameIndex_not_inherited name c :
  RegionNameIndex !! name = Some c → name ∉ object_prototype_keys.
Proof.
  apply (list_to_map_Forall (λ k _, k ∉ object_prototype_keys)),
    region_codes_not_inherited.
Qed.

(** The test of the code on a name no object inherits is membership in
    the index. *)
Lemma known_indexed name :
  name ∉ object_prototype_keys →
  known name = bool_decide (is_Some (RegionNameIndex !! name)).
Proof.
  intros Hp. unfold known. rewrite nameToCode_get.
  destruct (RegionNameIndex !! name) as [c|] eqn:Hc; simpl.
  - apply RegionNameIndex_nonzero in Hc. by rewrite !bool_decide_eq_true_2.
  - by rewrite decide_False by done.
Qed.

Lemma known_inherited name : name ∈ object_prototype_keys → known name = true.
Proof.
  intros Hp. unfold known. rewrite nameToCode_get.
  destruct (RegionNameIndex !! name) as [c|] eqn:Hc.
  - by apply RegionNameIndex_not_inherited in Hc.
  - by rewrite decide_True.
Qed.

#[export] Hint Resolve RegionNameIndex_nonzero RegionNameIndex_not_inherited
  known_inherited : chart.

(** ** Properties of the index *)

(** C25: the test [if (nameToCode[params.name])] of the click handler holds
    exactly of the names of the index and of the twelve property names
    every object inherits from [Object.prototype]. *)
Theorem known_iff_index name :
  known name = true ↔
    is_Some (RegionNameIndex !! name) ∨ name ∈ object_prototype_keys.
Proof.
  destruct (decide (name ∈ object_prototype_keys)) as [Hp|Hp].
  - rewrite known_inherited by done. tauto.
  - rewrite known_indexed, bool_decide_eq_true by done. tauto.
Qed.

