(* ===== verification/Options.v ===== *)
(** * The rendering configurations

    The two option objects of src/src/App.tsx, [chinaOption] (lines 15-153)
    and [jxOption] (lines 155-195), field by field and in source order,
    the three boundary datasets the file loads (lines 8-10), and what a
    charting engine reads from an option to choose its boundary data: the
    [map] key of the [geo] component and of every series of type [map]. *)

From S2P Require Import Prelude JsValue.

Open Scope string_scope.
Open Scope js_scope.

(** The boundary datasets, opaque to the program: [chinaJson], [zjJson]
    and [jxJson] are the three [require]d JSON files. *)
Inductive dataset : Set := chinaJson | zjJson | jxJson.

#[export] Instance dataset_eq_dec : EqDecision dataset.
Proof. solve_decision. Defined.

(** ** [chinaOption] *)

Definition china_title : jsval :=
  JObj [
    "top" :-> num 20;
    "text" :-> "全国地图";
    "subtext" :-> "";
    "x" :-> "center";
    "textStyle" :-> JObj [ "color" :-> "#000" ]
  ].

Definition china_tooltip : jsval :=
  JObj [ "trigger" :-> "item" ].

Definition china_geo : jsval :=
  JObj [
    "type" :-> "map";
    "map" :-> "china";
    "roam" :-> true;
    "zoom" :-> dec 11 1;
    "label" :-> JObj [
      "normal" :-> JObj [
        "show" :-> true;
        "textStyle" :-> JObj [ "color" :-> "#000000" ]
      ];
      "emphasis" :-> JObj [
        "textStyle" :-> JObj [ "color" :-> "#ff4242" ]
      ]
    ];
    "itemStyle" :-> JObj [
      "normal" :-> JObj [
        "areaColor" :-> "#EEEEEE";
        "borderColor" :-> "#ff5555"
      ];
      "emphasis" :-> JObj [ "areaColor" :-> "#ffffff" ]
    ]
  ].

Definition china_visualMap : jsval :=
  JObj [
    "right" :-> "20";
    "bottom" :-> "20";
    "min" :-> num 100;
    "max" :-> num 10000;
    "inRange" :-> JObj [ "color" :-> JArr [ JStr "#84f670"; JStr "#ff4260" ] ];
    "text" :-> JArr [ JStr "高"; JStr "低" ];
    "calculable" :-> true
  ].

Definition china_map_series : jsval :=
  JObj [
    "type" :-> "map";
    "name" :-> "mapName";
    "geoIndex" :-> num 0;
    "roam" :-> true;
    "map" :-> "china";
    "data" :-> JArr [
      JObj [ "name" :-> "安徽省"; "value" :-> num 2000 ];
      JObj [ "name" :-> "台湾省"; "value" :-> num 5000 ];
      JObj [ "name" :-> "四川省"; "value" :-> num 8000 ]
    ];
    "itemStyle" :-> JObj [
      "areaColor" :-> "#459bd0";
      "borderColor" :-> "rgba(37,213,94,0.58)"
    ];
    "emphasis" :-> JObj [
      "itemStyle" :-> JObj [ "areaColor" :-> "#90eaff"; "borderWidth" :-> num 2 ]
    ];
    "select" :-> JObj [
      "itemStyle" :-> JObj [ "areaColor" :-> "#90eaff"; "borderWidth" :-> num 2 ]
    ];
    "label" :-> JObj [
      "show" :-> true;
      "fontSize" :-> num 12;
      "fontWeight" :-> num 400;
      "color" :-> "#484848"
    ]
  ].

Definition china_scatter_series : jsval :=
  JObj [
    "type" :-> "scatter";
    "name" :-> "scatterName";
    "coordinateSystem" :-> "geo";
    "symbol" :-> "diamond";
    "symbolSize" :-> num 20;
    "encode" :-> JObj [ "lat" :-> "lat"; "lng" :-> "lng" ];
    "label" :-> JObj [
      "show" :-> true;
      "fontSize" :-> num 12;
      "fontWeight" :-> num 400;
      "color" :-> "#484848";
      "formatter" :-> JFun "¥"
    ];
    "data" :-> JArr [
      JObj [
        "name" :-> "哈尔滨市";
        "value" :-> JArr [ dec 126642464 6; dec 45756967 6; num 6000 ]
      ]
    ]
  ].

Definition china_effectScatter_series : jsval :=
  JObj [
    "type" :-> "effectScatter";
    "name" :-> "effectScatterName";
    "coordinateSystem" :-> "geo";
    "symbolSize" :-> num 15;
    "encode" :-> JObj [ "value" :-> num 2 ];
    "label" :-> JObj [
      "show" :-> true;
      "fontSize" :-> num 12;
      "fontWeight" :-> num 400;
      "color" :-> "#484848";
      "formatter" :-> JFun "$"
    ];
    "data" :-> JArr [
      JObj [
        "name" :-> "济南市";
        "value" :-> JArr [ dec 117000923 6; dec 36675807 6; num 9000 ]
      ]
    ]
  ].

Definition chinaOption : jsval :=
  JObj [
    "backgroundColor" :-> "#fff";
    "title" :-> china_title;
    "tooltip" :-> china_tooltip;
    "geo" :-> china_geo;
    "visualMap" :-> china_visualMap;
    "series" :-> JArr [
      china_map_series; china_scatter_series; china_effectScatter_series
    ]
  ].

(** ** [jxOption] *)

Definition jx_title : jsval :=
  JObj [
    "top" :-> num 20;
    "text" :-> "用户注册区域展示";
    "subtext" :-> "";
    "x" :-> "center";
    "textStyle" :-> JObj [ "color" :-> "#000" ]
  ].

Definition jx_geo : jsval :=
  JObj [
    "type" :-> "map";
    "map" :-> "江西省";
    "roam" :-> true;
    "geoIndex" :-> num 1;
    "zoom" :-> dec 11 1;
    "label" :-> JObj [
      "normal" :-> JObj [
        "show" :-> true;
        "textStyle" :-> JObj [ "color" :-> "#000000" ]
      ];
      "emphasis" :-> JObj [
        "textStyle" :-> JObj [ "color" :-> "#000000" ]
      ]
    ];
    "itemStyle" :-> JObj [
      "normal" :-> JObj [
        "areaColor" :-> "#EEEEEE";
        "borderColor" :-> "#8b8b8b"
      ];
      "emphasis" :-> JObj [ "areaColor" :-> "#ffffff" ]
    ]
  ].

Definition jxOption : jsval :=
  JObj [
    "backgroundColor" :-> "#fff";
    "title" :-> jx_title;
    "geo" :-> jx_geo
  ].

(** ** What an engine reads from an option *)

(** The elements of an array value. *)
Definition items_of (v : jsval) : list jsval :=
  match v with
  | JArr items => items
  | _ => []
  end.

(** The boundary dataset key of the [geo] component: [option.geo.map]. *)
Definition geo_map (o : jsval) : option string :=
  as_string (js_path o ["geo"; "map"]).

(** The series of an option. *)
Definition series_of (o : jsval) : list jsval :=
  items_of (js_get o "series").

(** The boundary dataset key of a series, if it is of type [map]. *)
Definition series_map (s : jsval) : option string :=
  if decide (js_get s "type" = JStr "map") then as_string (js_get s "map")
  else None.

(** Every boundary dataset key an option asks the engine to draw. *)
Definition referenced_maps (o : jsval) : list string :=
  option_list (geo_map o) ++ omap series_map (series_of o).

(** ** Properties of the two options *)

Lemma geo_map_chinaOption : geo_map chinaOption = Some "china".
Proof. done. Qed.

Lemma geo_map_jxOption : geo_map jxOption = Some "江西省".
Proof. done. Qed.

Lemma referenced_maps_chinaOption :
  referenced_maps chinaOption = ["china"; "china"].
Proof. by_compute. Qed.

Lemma referenced_maps_jxOption : referenced_maps jxOption = ["江西省"].
Proof. by_compute. Qed.

#[export] Hint Rewrite geo_map_chinaOption geo_map_jxOption
  referenced_maps_chinaOption referenced_maps_jxOption : chart.

