(* ===== verification/ChartSurface.v ===== *)
(** * The chart surface

    The charting engine as the program uses it (src/src/App.tsx, lines
    237-262): one registry of boundary datasets shared by every chart
    ([registerMap]), and at most one chart instance on the page, created by
    [init], configured by [setOption], subscribed to by [on] and
    [getZr().on], and destroyed by [dispose].  The engine itself is not part
    of the repository: the operations follow the contract the specification
    gives for them, and what the contract leaves to the engine is a
    parameter: how a new option combines with the one in place is the
    interface [OptionMode]; what a subscription does on a channel already
    in use, which listeners [off] removes and what [init] does on an
    element that carries a chart is the interface [SurfaceMode].  A chart
    keeps the listeners of each channel as a list, and a click is
    delivered to all of them, in the order of the list. *)

From S2P Require Import Prelude JsValue RegionIndex Options.

Open Scope string_scope.

(** The two closures the program subscribes: the handler of the chart's
    [click] event (lines 242-254) and the handler of the [click] event of
    the canvas (lines 256-259). *)
Inductive listener : Set := ClickListener | ZrClickListener.

#[export] Instance listener_eq_dec : EqDecision listener.
Proof. solve_decision. Defined.

(** A call made to the engine. *)
Inductive call : Type :=
| CallInit
| CallRegisterMap (key : string) (data : dataset)
| CallSetOption (o : jsval)
| CallOn (ev : string) (l : listener)
| CallZrOn (ev : string) (l : listener)
| CallOff (ev : string)
| CallDispose.

#[export] Instance call_eq_dec : EqDecision call.
Proof. solve_decision. Defined.

(** A chart instance: the option it renders, none before the first
    [setOption], and the listeners subscribed on the chart and on its
    canvas, each with its event name, in the order of subscription. *)
Record chart : Type := Chart {
  chart_option : option jsval;
  chart_on : list (string * listener);
  zr_on : list (string * listener)
}.

#[export] Instance chart_eq_dec : EqDecision chart.
Proof. solve_decision. Defined.

(** The engine: the registry of boundary datasets, the chart instance if
    one exists, and the calls made so far, oldest first. *)
Record world : Type := World {
  maps : gmap string dataset;
  myChart : option chart;
  calls : list call
}.

#[export] Instance world_eq_dec : EqDecision world.
Proof. solve_decision. Defined.

(** How [setOption] combines the option in place with the new one. *)
Class OptionMode : Type := {
  apply_option : option jsval → jsval → jsval;
  (** the first option is taken as it is *)
  apply_option_first new : apply_option None new = new;
  (** the [geo] component draws the boundary the new option names *)
  apply_option_geo_map old new k :
    geo_map new = Some k → geo_map (apply_option old new) = Some k;
  (** no boundary is drawn that neither option names *)
  apply_option_referenced old new :
    referenced_maps (apply_option (Some old) new)
      ⊆ (referenced_maps old ++ referenced_maps new)%list
}.

(** The mode of the specification: the new option replaces the one in
    place. *)
Class Replacing `{!OptionMode} : Prop :=
  replacing old new : apply_option old new = new.

#[export] Program Instance replace_mode : OptionMode :=
  {| apply_option _ new := new |}.
Next Obligation. done. Qed.
Next Obligation. done. Qed.
Next Obligation. intros old new k ?. apply elem_of_app. by right. Qed.

#[export] Instance replace_mode_replacing : Replacing.
Proof. done. Qed.

(** Subscription that replaces, as section 4.2 of the specification asks
    of a channel: the listeners of [ev] are dropped and [l] is the one
    listener of [ev]. *)
Definition resubscribe (ev : string) (l : listener)
    (ls : list (string * listener)) : list (string * listener) :=
  (filter (λ el, el.1 ≠ ev) ls ++ [(ev, l)])%list.

(** What the contract leaves to the engine about listeners and
    instances: what a subscription does to a channel that already has
    listeners, what [off] does to the chart, and which instance [init]
    returns for an element that already carries one. *)
Class SurfaceMode : Type := {
  subscribe : string → listener →
              list (string * listener) → list (string * listener);
  unsubscribe : string → chart → chart;
  reinit : chart → chart;
  (** on a channel without listeners, the new listener is the one
      listener of the channel *)
  subscribe_fresh ev l ls :
    ev ∉ keys ls → subscribe ev l ls = (ls ++ [(ev, l)])%list
}.

Lemma resubscribe_fresh ev l ls :
  ev ∉ keys ls → resubscribe ev l ls = (ls ++ [(ev, l)])%list.
Proof.
  intros Hev. unfold resubscribe. f_equal. apply filter_all, Forall_forall.
  intros [ev' l'] Hin; simpl; intros ->.
  apply Hev, list_elem_of_fmap. by exists (ev, l').
Qed.

(** The surface of the specification: a later registration replaces an
    earlier one. *)
#[export] Instance replacing_surface : SurfaceMode :=
  {| subscribe := resubscribe;
     unsubscribe ev c :=
       Chart (chart_option c) (filter (λ el, el.1 ≠ ev) (chart_on c))
         (zr_on c);
     reinit c := c;
     subscribe_fresh := resubscribe_fresh |}.

(** A surface on which a subscription adds a listener to those of its
    channel. *)
Definition stacking_surface : SurfaceMode :=
  {| subscribe ev l ls := (ls ++ [(ev, l)])%list;
     unsubscribe ev c :=
       Chart (chart_option c) (filter (λ el, el.1 ≠ ev) (chart_on c))
         (zr_on c);
     reinit c := c;
     subscribe_fresh ev l ls _ := eq_refl |}.

(** The engine before the page loads: nothing registered, no chart. *)
Definition start : world := World ∅ None [].

Definition log (c : call) : cmd world :=
  λ w, World (maps w) (myChart w) (calls w ++ [c])%list.

(** Update the chart instance, if there is one: a call on a disposed
    instance is ignored. *)
Definition with_chart (f : chart → chart) : cmd world :=
  λ w, World (maps w) (f <$> myChart w) (calls w).

(** [registerMap(key, data)]: bind [key] to [data], overwriting. *)
Definition registerMap (key : string) (data : dataset) : cmd world :=
  λ w, World (<[key := data]> (maps w)) (myChart w)
         (calls w ++ [CallRegisterMap key data])%list.

Section mode.
Context `{!OptionMode}.

(** [myChart.setOption(o)]. *)
Definition setOption (o : jsval) : cmd world :=
  seq (log (CallSetOption o))
      (with_chart (λ c,
         Chart (Some (apply_option (chart_option c) o)) (chart_on c) (zr_on c))).

End mode.

Section surface.
Context `{!SurfaceMode}.

(** [init(dom)]: a fresh instance on the element, without option or
    listeners; on an element that already carries an instance, the
    instance the engine returns for it. *)
Definition init : cmd world :=
  λ w, World (maps w)
         (Some (from_option reinit (Chart None [] []) (myChart w)))
         (calls w ++ [CallInit])%list.

(** [myChart.on(ev, l)]: [l] is subscribed to [ev] on the chart. *)
Definition on (ev : string) (l : listener) : cmd world :=
  seq (log (CallOn ev l))
      (with_chart (λ c,
         Chart (chart_option c) (subscribe ev l (chart_on c)) (zr_on c))).

(** [myChart.getZr().on(ev, l)]: [l] is subscribed to [ev] on the
    canvas. *)
Definition getZr_on (ev : string) (l : listener) : cmd world :=
  seq (log (CallZrOn ev l))
      (with_chart (λ c,
         Chart (chart_option c) (chart_on c) (subscribe ev l (zr_on c)))).

(** [myChart.off(ev)]. *)
Definition off (ev : string) : cmd world :=
  seq (log (CallOff ev)) (with_chart (unsubscribe ev)).

End surface.

(** [myChart.dispose()]: the instance and its subscriptions are gone; the
    registry of boundary datasets stays. *)
Definition dispose : cmd world :=
  λ w, World (maps w) None (calls w ++ [CallDispose])%list.

(** A click the engine reports: on a rendered feature, with its display
    name, or on the canvas. *)
Inductive event : Type :=
| FeatureClick (name : string)
| BackgroundClick.

#[export] Instance event_eq_dec : EqDecision event.
Proof. solve_decision. Defined.

(** The listeners of [ev] among [ls], in the order of subscription. *)
Definition listeners (ev : string) (ls : list (string * listener))
    : list listener :=
  (filter (λ el, el.1 = ev) ls).*2.

(** The listeners [ls] called one after the other with [arg]; [handle] is
    the code of the listeners. *)
Definition notify (handle : listener → string → cmd world)
    (ls : list listener) (arg : string) : cmd world :=
  λ w, foldl (λ w l, handle l arg w) w ls.

(** Delivery of a click to the listeners subscribed for it when it
    occurs, if the chart exists. *)
Definition dispatch (handle : listener → string → cmd world) (e : event)
    : cmd world :=
  λ w,
    match myChart w with
    | None => w
    | Some c =>
        match e with
        | FeatureClick name =>
            notify handle (listeners "click" (chart_on c)) name w
        | BackgroundClick =>
            notify handle (listeners "click" (zr_on c)) "" w
        end
    end.

(** The option the chart renders. *)
Definition current (w : world) : option jsval :=
  myChart w ≫= chart_option.

(** The boundary the [geo] component of the chart draws. *)
Definition shown_map (w : world) : option string :=
  current w ≫= geo_map.

(** Every boundary the rendered option names is registered. *)
Definition drawable (w : world) : Prop :=
  Forall (λ k, is_Some (maps w !! k))
    (from_option referenced_maps [] (current w)).

#[export] Instance drawable_dec w : Decision (drawable w).
Proof. unfold drawable. apply _. Defined.

(** The calls of a command: what it appends to the log. *)
Definition calls_of (c : cmd world) (w : world) : list call :=
  drop (length (calls w)) (calls (c w)).
