(* ===== verification/Controller.v ===== *)
(** * The controller

    The effect of [App] (src/src/App.tsx, lines 235-265): what it does when
    it runs, the two click handlers it subscribes and the clean-up it
    returns, each a command on the engine of [ChartSurface], written in
    the order of the source.  The theorems give the behaviour of every
    branch of the handlers, the invariant [ready] that every delivery of a
    click preserves, and what the calls made to the engine look like. *)

From S2P Require Import Prelude JsValue RegionIndex Options ChartSurface.

Open Scope string_scope.
Open Scope cmd_scope.

Section controller.
Context `{!OptionMode, !SurfaceMode}.

(** The handler of the chart's [click] event (lines 242-254);
    [params_name] is [params.name]. *)
Definition on_click (params_name : string) : cmd world :=
  if known params_name then
    if bool_decide (params_name ≠ "江西省") then skip
    else (registerMap params_name jxJson ;; setOption jxOption)
  else (registerMap "china" chinaJson ;; setOption chinaOption).

(** The handler of the canvas's [click] event (lines 256-259). *)
Definition on_zr_click : cmd world :=
  registerMap "china" chinaJson ;; setOption chinaOption.

(** The code of a listener. *)
Definition handle (l : listener) (params_name : string) : cmd world :=
  match l with
  | ClickListener => on_click params_name
  | ZrClickListener => on_zr_click
  end.

(** The delivery of a click to the program. *)
Definition deliver : event → cmd world := dispatch handle.

(** The function given to [useEffect] (lines 236-259), run with
    [echartsRef.current] set or not. *)
Definition effect (echartsRef_current : bool) : cmd world :=
  if echartsRef_current then
    init ;;
    registerMap "china" chinaJson ;;
    setOption chinaOption ;;
    on "click" ClickListener ;;
    getZr_on "click" ZrClickListener
  else skip.

(** The clean-up the effect returns (lines 260-263). *)
Definition cleanup : cmd world :=
  off "click" ;; dispose.

End controller.

(** ** The invariant *)

(** The boundary datasets the program may register, by key. *)
Definition boundaries : gmap string dataset :=
  {[ "china" := chinaJson; "江西省" := jxJson ]}.

(** Both handlers are subscribed, each once, and nothing else is. *)
Definition subscribed (w : world) : Prop :=
  chart_on <$> myChart w = Some [("click", ClickListener)] ∧
  zr_on <$> myChart w = Some [("click", ZrClickListener)].

(** The registry holds the national boundary and nothing but the right
    dataset under each key. *)
Definition registry_ok (w : world) : Prop :=
  maps w ⊆ boundaries ∧ maps w !! "china" = Some chinaJson.

(** The state between two clicks, from the first run of the effect to the
    clean-up. *)
Definition ready (w : world) : Prop :=
  subscribed w ∧
  (shown_map w = Some "china" ∨ shown_map w = Some "江西省") ∧
  registry_ok w ∧ drawable w.

#[export] Instance subscribed_dec w : Decision (subscribed w).
Proof. unfold subscribed. apply _. Defined.

#[export] Instance ready_dec w : Decision (ready w).
Proof. unfold ready, registry_ok. apply _. Defined.

(** A call may follow the call [prev]: a [setOption] needs the
    [registerMap] of the boundary its [geo] component draws right before
    it, with the dataset of that boundary. *)
Definition may_follow (prev : option call) (c : call) : bool :=
  match c with
  | CallSetOption o =>
      match prev with
      | Some (CallRegisterMap k d) =>
          bool_decide (geo_map o = Some k ∧ boundaries !! k = Some d)
      | _ => false
      end
  | _ => true
  end.

(** Every call of the log [cs] may follow the one before it, [prev] being
    the call before the first. *)
Fixpoint paired_from (prev : option call) (cs : list call) : bool :=
  match cs with
  | [] => true
  | c :: cs' => may_follow prev c && paired_from (Some c) cs'
  end.

(** Every [setOption] of the log is paired with its [registerMap]. *)
Definition paired (cs : list call) : bool := paired_from None cs.

(** ** Building blocks *)

Lemma paired_from_app prev cs1 cs2 :
  paired_from prev (cs1 ++ cs2) =
    paired_from prev cs1 && paired_from (last (option_list prev ++ cs1)) cs2.
Proof.
  revert prev. induction cs1 as [|c cs1 IH]; intros prev; simpl.
  - by destruct prev.
  - rewrite IH, andb_assoc. do 2 f_equal.
    destruct prev; simpl; by rewrite ?last_cons_cons.
Qed.

Lemma boundaries_lookup k d :
  boundaries !! k = Some d →
  (k = "china" ∧ d = chinaJson) ∨ (k = "江西省" ∧ d = jxJson).
Proof.
  unfold boundaries.
  intros [[<- <-]|[_ [<- <-]%lookup_singleton_Some]]%lookup_insert_Some; auto.
Qed.

Section blocks.
Context `{!OptionMode, !SurfaceMode}.
Implicit Types (w : world) (k : string) (d : dataset) (o : jsval).

(** The block [registerMap(k, d); myChart.setOption(o)], which is all that
    a handler ever runs. *)
Lemma block_world w k d o :
  (registerMap k d ;; setOption o) w =
    World (<[k := d]> (maps w))
      ((λ c, Chart (Some (apply_option (chart_option c) o))
                   (chart_on c) (zr_on c)) <$> myChart w)
      (calls w ++ [CallRegisterMap k d; CallSetOption o]).
Proof. unfold seq, setOption, seq, log, with_chart. simpl. by rewrite <-app_assoc. Qed.

Lemma block_calls_of w k d o :
  calls_of (registerMap k d ;; setOption o) w =
    [CallRegisterMap k d; CallSetOption o].
Proof. unfold calls_of. rewrite block_world. simpl. apply drop_app_length. Qed.

Lemma block_current w k d o :
  is_Some (myChart w) →
  current ((registerMap k d ;; setOption o) w) =
    Some (apply_option (current w) o).
Proof. intros [c Hc]. rewrite block_world. unfold current. simpl. by rewrite Hc. Qed.

Lemma block_shown_map w k d o k' :
  is_Some (myChart w) → geo_map o = Some k' →
  shown_map ((registerMap k d ;; setOption o) w) = Some k'.
Proof.
  intros Hc Ho. unfold shown_map. rewrite block_current by done.
  by apply apply_option_geo_map.
Qed.

Lemma subscribed_chart w : subscribed w → is_Some (myChart w).
Proof. intros [Hc _]. by destruct (myChart w). Qed.

Lemma block_subscribed w k d o :
  subscribed w → subscribed ((registerMap k d ;; setOption o) w).
Proof.
  intros [Hc Hz]. rewrite block_world. unfold subscribed. simpl.
  by destruct (myChart w).
Qed.

Lemma block_registry_ok w k d o :
  boundaries !! k = Some d → registry_ok w →
  registry_ok ((registerMap k d ;; setOption o) w).
Proof.
  intros Hk [Hm Hc]. rewrite block_world. split; simpl.
  - by apply insert_subseteq_l.
  - destruct (decide (k = "china")) as [->|]; [|by rewrite lookup_insert_ne].
    rewrite lookup_insert_eq. by rewrite <-Hk.
Qed.

(** The boundaries drawn after the block are those drawn before and those
    the new option names. *)
Lemma block_referenced w k d o k' :
  k' ∈ from_option referenced_maps []
         (current ((registerMap k d ;; setOption o) w)) →
  k' ∈ from_option referenced_maps [] (current w) ∨ k' ∈ referenced_maps o.
Proof.
  destruct (myChart w) as [c|] eqn:Hc; [|rewrite block_world; unfold current;
    simpl; rewrite Hc; by intros ?%elem_of_nil].
  rewrite block_current by eauto. simpl.
  destruct (current w) as [old|]; simpl.
  - intros ?%apply_option_referenced. by apply elem_of_app.
  - rewrite apply_option_first. auto.
Qed.

Lemma block_drawable w k d o :
  (∀ k', k' ∈ referenced_maps o → k' = k ∨ is_Some (maps w !! k')) →
  drawable w → drawable ((registerMap k d ;; setOption o) w).
Proof.
  intros Ho Hw. apply Forall_forall. intros k' Hk'.
  assert (is_Some (maps w !! k') → is_Some (<[k := d]> (maps w) !! k'))
    as Hmono by (rewrite lookup_insert_is_Some; destruct (decide (k = k')); auto).
  apply block_referenced in Hk' as [Hk'|Hk'%Ho]; rewrite block_world; simpl.
  - apply Hmono. by apply (proj1 (Forall_forall _ _) Hw).
  - destruct Hk' as [->|]; [by rewrite lookup_insert_eq | auto].
Qed.

Lemma block_ready w k d o :
  boundaries !! k = Some d → geo_map o = Some k →
  (∀ k', k' ∈ referenced_maps o → k' = k ∨ k' = "china") →
  ready w → ready ((registerMap k d ;; setOption o) w).
Proof.
  intros Hk Hg Ho (Hs & Hc & Hr & Hd). split_and!.
  - by apply block_subscribed.
  - rewrite (block_shown_map _ _ _ _ k) by (by try apply subscribed_chart).
    apply boundaries_lookup in Hk as [[-> _]|[-> _]]; auto.
  - by apply block_registry_ok.
  - apply block_drawable; [|done].
    intros k' [->| ->]%Ho; [by left | right]. by rewrite (proj2 Hr).
Qed.

End blocks.

(** ** The handlers, branch by branch *)

(** The step a click triggers: nothing, or the block [registerMap(k, d);
    setOption(o)]. *)
Definition action (e : event) : option (string * dataset * jsval) :=
  match e with
  | FeatureClick name =>
      if known name then
        if decide (name = "江西省") then Some ("江西省", jxJson, jxOption)
        else None
      else Some ("china", chinaJson, chinaOption)
  | BackgroundClick => Some ("china", chinaJson, chinaOption)
  end.

Section handlers.
Context `{!OptionMode, !SurfaceMode}.
Implicit Types (w : world) (e : event) (name : string).

Lemma deliver_no_chart e w : myChart w = None → deliver e w = w.
Proof. intros Hc. unfold deliver, dispatch. by rewrite Hc. Qed.

Lemma deliver_feature w name :
  subscribed w → deliver (FeatureClick name) w = on_click name w.
Proof.
  intros [Hc _]. unfold deliver, dispatch.
  destruct (myChart w); simplify_eq/=. by rewrite Hc.
Qed.

Lemma deliver_background w :
  subscribed w → deliver BackgroundClick w = on_zr_click w.
Proof.
  intros [_ Hz]. unfold deliver, dispatch.
  destruct (myChart w); simplify_eq/=. by rewrite Hz.
Qed.

(** Every delivery is the step [action] gives. *)
Lemma deliver_action w e :
  subscribed w →
  deliver e w =
    match action e with
    | Some (k, d, o) => (registerMap k d ;; setOption o) w
    | None => w
    end.
Proof.
  intros Hs. destruct e as [name|]; simpl.
  - rewrite deliver_feature by done. unfold on_click.
    destruct (known name); [|done].
    destruct (decide (name = "江西省")) as [->|]; [done|].
    by rewrite bool_decide_eq_true_2.
  - by rewrite deliver_background.
Qed.

Lemma action_sound e k d o :
  action e = Some (k, d, o) →
  boundaries !! k = Some d ∧ geo_map o = Some k ∧
  ∀ k', k' ∈ referenced_maps o → k' = k ∨ k' = "china".
Proof.
  assert (Forall (λ k', k' = "china" ∨ k' = "china")
            (referenced_maps chinaOption)) as Hc by by_decide.
  assert (Forall (λ k', k' = "江西省" ∨ k' = "china")
            (referenced_maps jxOption)) as Hj by by_decide.
  rewrite Forall_forall in Hc, Hj.
  destruct e as [name|]; simpl; intros; case_tests; done.
Qed.

(** The only two blocks a click ever runs. *)
Lemma action_cases e k d o :
  action e = Some (k, d, o) →
  (k, d, o) = ("china", chinaJson, chinaOption) ∨
  (k, d, o) = ("江西省", jxJson, jxOption).
Proof.
  destruct e as [name|]; unfold action; intros; case_tests; auto.
Qed.

Lemma deliver_action_Some w e k d o :
  subscribed w → action e = Some (k, d, o) →
  deliver e w = (registerMap k d ;; setOption o) w.
Proof. intros Hs He. by rewrite deliver_action, He. Qed.

Lemma deliver_action_None w e :
  subscribed w → action e = None → deliver e w = w.
Proof. intros Hs He. by rewrite deliver_action, He. Qed.

Lemma deliver_ready w e : ready w → ready (deliver e w).
Proof.
  intros Hw. rewrite deliver_action by apply Hw.
  destruct (action e) as [[[k d] o]|] eqn:He; [|done].
  apply action_sound in He as (? & ? & ?). by apply block_ready.
Qed.

End handlers.

(** ** The effect and the clean-up *)

Section lifecycle.
Context `{!OptionMode, !SurfaceMode}.
Implicit Types (w : world).

(** The engine after the effect has run on a page without a chart. *)
Lemma effect_world w :
  myChart w = None →
  effect true w =
    World (<["china" := chinaJson]> (maps w))
      (Some (Chart (Some chinaOption)
               [("click", ClickListener)]
               [("click", ZrClickListener)]))
      (calls w ++ [CallInit; CallRegisterMap "china" chinaJson;
                   CallSetOption chinaOption; CallOn "click" ClickListener;
                   CallZrOn "click" ZrClickListener]).
Proof.
  destruct w as [m c cs]. simpl. intros ->.
  unfold effect, seq, init, registerMap, setOption, on, getZr_on, seq, log,
    with_chart. simpl.
  rewrite apply_option_first, !subscribe_fresh by apply not_elem_of_nil.
  f_equal. by rewrite <-!app_assoc.
Qed.

Lemma effect_ready w :
  myChart w = None → maps w ⊆ boundaries → ready (effect true w).
Proof.
  intros Hc Hm. rewrite effect_world by done. split_and!; try done.
  - by left.
  - split; simpl; [by apply insert_subseteq_l | by rewrite lookup_insert_eq].
  - unfold drawable, current. simpl. rewrite referenced_maps_chinaOption.
    repeat constructor; simpl; by rewrite lookup_insert_eq.
Qed.

(** The engine after the clean-up. *)
Lemma cleanup_world w :
  cleanup w = World (maps w) None (calls w ++ [CallOff "click"; CallDispose]).
Proof.
  unfold cleanup, seq, off, dispose, seq, log, with_chart. simpl.
  by rewrite <-app_assoc.
Qed.

End lifecycle.

(** ** Runs of clicks *)

Section runs.
Context `{!OptionMode, !SurfaceMode}.
Implicit Types (w : world) (e : event) (es : list event).

(** The page once the effect has run for the first time. *)
Definition mounted : world := effect true start.

Lemma mounted_ready : ready mounted.
Proof. apply effect_ready; [done | apply map_empty_subseteq]. Qed.

Lemma run_ready w es : ready w → ready (run deliver es w).
Proof. apply run_invariant. intros e s. apply deliver_ready. Qed.

End runs.

(** ** Properties of the controller *)

Section properties.
Context `{!OptionMode, !SurfaceMode}.
Implicit Types (w : world) (e : event) (es : list event) (name : string).

(** What a delivery that runs the block [registerMap(k, d); setOption(o)]
    leaves and logs. *)
Lemma deliver_block w e k d o :
  subscribed w → action e = Some (k, d, o) → geo_map o = Some k →
  shown_map (deliver e w) = Some k ∧
  maps (deliver e w) !! k = Some d ∧
  calls_of (deliver e) w = [CallRegisterMap k d; CallSetOption o].
Proof.
  intros Hs He Ho. unfold calls_of.
  rewrite (deliver_action_Some w e k d o) by done. split_and!.
  - apply block_shown_map; [by apply subscribed_chart | done].
  - rewrite block_world. simpl. by rewrite lookup_insert_eq.
  - apply block_calls_of.
Qed.

(** C9: initial state.  Run with the ref set, on a page that has no chart
    yet, the effect leaves a chart that renders [chinaOption] with the
    national boundary registered and both handlers subscribed, by exactly
    five calls to the engine, in the order of the source. *)
Theorem effect_initial w :
  myChart w = None →
  current (effect true w) = Some chinaOption ∧
  shown_map (effect true w) = Some "china" ∧
  maps (effect true w) !! "china" = Some chinaJson ∧
  subscribed (effect true w) ∧
  calls_of (effect true) w =
    [CallInit; CallRegisterMap "china" chinaJson; CallSetOption chinaOption;
     CallOn "click" ClickListener; CallZrOn "click" ZrClickListener].
Proof.
  intros Hc. unfold calls_of. rewrite effect_world by done.
  split_and!; try done; simpl.
  - by rewrite lookup_insert_eq.
  - apply drop_app_length.
Qed.

(** C5: drill-down.  A click on the feature named 江西省 registers the
    province's boundary data under that name and makes the chart draw it,
    by one [registerMap] and one [setOption]. *)
Theorem click_target_drills_down w :
  subscribed w →
  shown_map (deliver (FeatureClick "江西省") w) = Some "江西省" ∧
  maps (deliver (FeatureClick "江西省") w) !! "江西省" = Some jxJson ∧
  calls_of (deliver (FeatureClick "江西省")) w =
    [CallRegisterMap "江西省" jxJson; CallSetOption jxOption].
Proof. intros Hs. by apply deliver_block. Qed.

(** C6: a click on a feature whose name passes the test of the handler and
    is not 江西省 changes nothing: no boundary is registered, no option
    applied, no call made. *)
Theorem click_other_region_ignored w name :
  subscribed w → known name = true → name ≠ "江西省" →
  deliver (FeatureClick name) w = w.
Proof.
  intros Hs Hk Hn. apply deliver_action_None; [done|]. simpl.
  by rewrite Hk, decide_False.
Qed.

(** C7: unknown-name reset.  A click on a feature whose name fails the test
    of the handler registers the national boundary again and makes the
    chart draw it. *)
Theorem click_unknown_resets w name :
  subscribed w → known name = false →
  shown_map (deliver (FeatureClick name) w) = Some "china" ∧
  maps (deliver (FeatureClick name) w) !! "china" = Some chinaJson ∧
  calls_of (deliver (FeatureClick name)) w =
    [CallRegisterMap "china" chinaJson; CallSetOption chinaOption].
Proof.
  intros Hs Hk. apply deliver_block; [done| |done]. simpl. by rewrite Hk.
Qed.

(** C8: background reset is unconditional.  A click on the canvas registers
    the national boundary and applies the national option whatever the
    chart shows, the national map included: the two calls are made every
    time. *)
Theorem background_click_resets w :
  subscribed w →
  shown_map (deliver BackgroundClick w) = Some "china" ∧
  maps (deliver BackgroundClick w) !! "china" = Some chinaJson ∧
  calls_of (deliver BackgroundClick) w =
    [CallRegisterMap "china" chinaJson; CallSetOption chinaOption].
Proof. intros Hs. by apply deliver_block. Qed.

(** C4: [ready] is an invariant of the delivery of clicks: after any
    sequence of clicks both handlers are still subscribed, the chart draws
    the national map or the province, the registry holds the national
    boundary and only right datasets, and every boundary the chart draws
    is registered. *)
Theorem ready_invariant w es : ready w → ready (run deliver es w).
Proof. apply run_ready. Qed.

(** C24: whatever is clicked, the registry only ever binds the key [china]
    to the national data and the key 江西省 to the data of that province;
    the third dataset the file loads, [zjJson], is never registered. *)
Theorem registry_sound w es k d :
  ready w → maps (run deliver es w) !! k = Some d →
  (k = "china" ∧ d = chinaJson) ∨ (k = "江西省" ∧ d = jxJson).
Proof.
  intros Hw%(run_ready _ es) Hk. apply boundaries_lookup.
  destruct Hw as (_ & _ & [Hm _] & _). by eapply lookup_weaken.
Qed.

(** C23: whatever is clicked, the chart draws a boundary, and never one
    that is not registered. *)
Theorem rendered_boundaries_registered w es :
  ready w →
  drawable (run deliver es w) ∧
  ∃ k, shown_map (run deliver es w) = Some k ∧
       is_Some (maps (run deliver es w) !! k).
Proof.
  intros (_ & Hk & _ & Hd)%(run_ready _ es).
  split; [done|]. unfold drawable, shown_map in *.
  destruct (current _) as [o|]; simpl in *; [|by destruct Hk].
  rewrite Forall_forall in Hd. unfold referenced_maps in Hd.
  destruct Hk as [Hk|Hk]; eexists; (split; [done|]);
    apply Hd; rewrite Hk; by left.
Qed.

(** C20: disposal halts delivery.  After the clean-up no click reaches the
    program: whatever is clicked, the engine stays as the clean-up left
    it, and no further call is made. *)
Theorem dispose_halts_delivery w es : run deliver es (cleanup w) = cleanup w.
Proof.
  apply (run_invariant (λ s, s = cleanup w)); [|done].
  intros e s ->. apply deliver_no_chart. by rewrite cleanup_world.
Qed.

(** C29: the clean-up disposes of the chart and leaves the registry of
    boundary datasets as it is: what was registered stays registered for
    the next chart of the page. *)
Theorem cleanup_keeps_registry w :
  myChart (cleanup w) = None ∧ maps (cleanup w) = maps w ∧
  calls_of cleanup w = [CallOff "click"; CallDispose].
Proof.
  unfold calls_of. rewrite cleanup_world. split_and!; try done.
  apply drop_app_length.
Qed.

End properties.

(** ** Properties that need the replacing mode *)

Section replacing.
Context `{!OptionMode} `{!Replacing}.
Implicit Types (w : world) (e : event) (name : string).

Lemma block_chart_replacing w k d o :
  myChart ((registerMap k d ;; setOption o) w) =
    (λ c, Chart (Some o) (chart_on c) (zr_on c)) <$> myChart w.
Proof.
  rewrite block_world. simpl. destruct (myChart w); simpl; by rewrite ?replacing.
Qed.

Lemma deliver_current_replacing w e k d o :
  subscribed w → action e = Some (k, d, o) → current (deliver e w) = Some o.
Proof.
  intros Hs He. rewrite (deliver_action_Some w e k d o) by done.
  rewrite block_current by by apply subscribed_chart. by rewrite replacing.
Qed.

(** C32: the option each click leaves.  When the engine replaces the
    option in place, as the specification asks, each transition leaves the chart rendering exactly the option
    the handler passed: [jxOption] after a click on 江西省, [chinaOption]
    after a click on the canvas or on an unknown name. *)
Theorem replace_applies_options w name :
  subscribed w →
  current (deliver (FeatureClick "江西省") w) = Some jxOption ∧
  current (deliver BackgroundClick w) = Some chinaOption ∧
  (known name = false →
   current (deliver (FeatureClick name) w) = Some chinaOption).
Proof.
  intros Hs. split_and!; [| |intros Hk];
    eapply deliver_current_replacing; try done.
  simpl. by rewrite Hk.
Qed.

(** C10: round trip.  From the national view, a click on 江西省 followed by
    a click on the canvas leaves the chart exactly as it was: the same
    option, by value, and the same subscriptions. *)
Theorem round_trip_restores_chart w :
  subscribed w → current w = Some chinaOption →
  myChart (run deliver [FeatureClick "江西省"; BackgroundClick] w) = myChart w.
Proof.
  intros Hs Hc. rewrite !run_cons, run_nil.
  rewrite (deliver_action_Some w _ "江西省" jxJson jxOption) by done.
  rewrite (deliver_action_Some _ _ "china" chinaJson chinaOption)
    by (by try apply block_subscribed).
  rewrite !block_chart_replacing. unfold current in Hc.
  destruct (myChart w) as [[]|]; by simplify_eq/=.
Qed.


End replacing.

(** ** Witnesses *)

Lemma effect_initial_witness :
  current (effect true start) = Some chinaOption.
Proof. refine (proj1 (effect_initial start _)). reflexivity. Defined.

Lemma click_target_drills_down_witness :
  subscribed mounted ∧
  shown_map (deliver (FeatureClick "江西省") mounted) = Some "江西省".
Proof.
  split; [by_decide|].
  refine (proj1 (click_target_drills_down mounted _)). by_decide.
Defined.

Lemma click_other_region_ignored_witness :
  deliver (FeatureClick "安徽省") mounted = mounted.
Proof.
  apply (click_other_region_ignored mounted "安徽省");
    [by_decide | by_compute | by_compute].
Defined.

Lemma click_unknown_resets_witness :
  known "南昌市" = false ∧
  shown_map (deliver (FeatureClick "南昌市")
               (deliver (FeatureClick "江西省") mounted)) = Some "china".
Proof.
  split; [by_compute|].
  refine (proj1 (click_unknown_resets
    (deliver (FeatureClick "江西省") mounted) "南昌市" _ _));
    [by_decide | by_compute].
Defined.

Lemma background_click_resets_witness :
  shown_map mounted = Some "china" ∧
  calls_of (deliver BackgroundClick) mounted =
    [CallRegisterMap "china" chinaJson; CallSetOption chinaOption].
Proof.
  split; [by_compute|].
  refine (proj2 (proj2 (background_click_resets mounted _))). by_decide.
Defined.

Lemma ready_invariant_witness :
  ready (run deliver [FeatureClick "江西省"; FeatureClick "南昌市"] mounted).
Proof. apply (ready_invariant mounted). by_decide. Defined.

Lemma registry_sound_witness :
  ("江西省" = "china" ∧ jxJson = chinaJson) ∨
  ("江西省" = "江西省" ∧ jxJson = jxJson).
Proof.
  apply (registry_sound mounted [FeatureClick "江西省"] "江西省" jxJson);
    [by_decide | by_compute].
Defined.

Lemma rendered_boundaries_registered_witness :
  drawable (run deliver [FeatureClick "江西省"; FeatureClick "南昌市"] mounted).
Proof.
  refine (proj1 (rendered_boundaries_registered mounted _ _)). by_decide.
Defined.

Lemma replace_applies_options_witness :
  current (deliver (FeatureClick "江西省") mounted) = Some jxOption.
Proof.
  refine (proj1 (replace_applies_options mounted "南昌市" _)). by_decide.
Defined.

Lemma round_trip_restores_chart_witness :
  myChart (run deliver [FeatureClick "江西省"; BackgroundClick] mounted)
    = myChart mounted.
Proof.
  apply (round_trip_restores_chart mounted); [by_decide | by_compute].
Defined.

