(* ===== verification/ViewState.v ===== *)
(** * The view state machine and its refinement

    The specification describes the component as a machine with one piece
    of state, the view: the national map or one province.  The program
    keeps no such variable: the view is what the chart renders.  This file
    states the machine of the specification, reads the view off the engine
    with [view_state], and proves that the handlers of [Controller]
    implement the machine, for the clicks the specification covers. *)

From S2P Require Import Prelude JsValue RegionIndex Options.
From S2P Require Import ChartSurface Controller.

Open Scope string_scope.

(** The view: the national map or the province of a region code. *)
Inductive ViewState : Set :=
| National
| Province (code : Z).

#[export] Instance ViewState_eq_dec : EqDecision ViewState.
Proof. solve_decision. Defined.

(** The one name that supports drill-down (line 244). *)
Definition drilldown_target : string := "江西省".

(** [onFeatureClicked(name)]: an unknown name resets to the national view,
    a known name that is not the drill-down target changes nothing, the
    target leads to its province. *)
Definition spec_onFeatureClicked (name : string) : cmd ViewState :=
  λ v,
    match RegionNameIndex !! name with
    | None => National
    | Some code =>
        if decide (name = drilldown_target) then Province code else v
    end.

(** [onBackgroundClicked()]: always the national view. *)
Definition spec_onBackgroundClicked : cmd ViewState := λ _, National.

(** The transition function of the machine. *)
Definition spec_step (e : event) : cmd ViewState :=
  match e with
  | FeatureClick name => spec_onFeatureClicked name
  | BackgroundClick => spec_onBackgroundClicked
  end.

(** The view a boundary key stands for: the national map for [china], the
    province of the region for the display name of a region. *)
Definition view_of_map (k : string) : option ViewState :=
  if decide (k = "china") then Some National
  else Province <$> RegionNameIndex !! k.

(** The view of the engine: the view of the boundary the chart draws. *)
Definition view_state (w : world) : option ViewState :=
  shown_map w ≫= view_of_map.

(** A click the specification covers: its name, if it has one, is not one
    of the property names every object inherits. *)
Definition covered (e : event) : Prop :=
  match e with
  | FeatureClick name => name ∉ object_prototype_keys
  | BackgroundClick => True
  end.

#[export] Instance covered_dec e : Decision (covered e).
Proof. destruct e; apply _. Defined.

(** ** The handlers implement the machine *)

Section refinement.
Context `{!OptionMode, !SurfaceMode}.
Implicit Types (w : world) (e : event) (es : list event).

Lemma view_state_ready w :
  ready w →
  view_state w = Some National ∨ view_state w = Some (Province 360000).
Proof.
  intros (_ & [Hk|Hk] & _); unfold view_state; rewrite Hk; auto.
Qed.

(** The view after the block a click triggers. *)
Lemma view_state_action w e k d o :
  subscribed w → action e = Some (k, d, o) → geo_map o = Some k →
  view_state (deliver e w) = view_of_map k.
Proof.
  intros Hs He Ho. unfold view_state.
  by rewrite (proj1 (deliver_block w e k d o Hs He Ho)).
Qed.

(** The view after a click, from the step the click triggers. *)
Lemma view_state_deliver w e :
  subscribed w →
  view_state (deliver e w) =
    match action e with
    | Some (k, _, _) => view_of_map k
    | None => view_state w
    end.
Proof.
  intros Hs. destruct (action e) as [[[k d] o]|] eqn:He.
  - pose proof (action_sound _ _ _ _ He) as (_ & Ho & _).
    by eapply view_state_action.
  - by rewrite deliver_action_None.
Qed.

(** The step of the machine, from the step the click triggers. *)
Lemma spec_step_action e v :
  covered e →
  match action e with
  | Some (k, _, _) => view_of_map k
  | None => Some v
  end = Some (spec_step e v).
Proof.
  destruct e as [name|]; simpl; [|done]. intros He.
  unfold spec_onFeatureClicked, drilldown_target.
  rewrite (known_indexed name He).
  destruct (RegionNameIndex !! name) as [c|] eqn:Hc.
  - rewrite bool_decide_eq_true_2 by eauto.
    destruct (decide (name = "江西省")) as [->|]; [|done].
    vm_compute in Hc. by simplify_eq.
  - by rewrite bool_decide_eq_false_2 by (by intros []).
Qed.

(** One click: the view after the handler has run is the view the machine
    steps to. *)
Lemma deliver_simulates w e :
  covered e → ready w →
  view_state (deliver e w) = spec_step e <$> view_state w.
Proof.
  intros He Hw. rewrite view_state_deliver by apply Hw.
  destruct (view_state_ready w Hw) as [Hv|Hv]; rewrite Hv; simpl;
    by rewrite <-spec_step_action.
Qed.

End refinement.

(** ** Refinement *)

Section claims.
Context `{!OptionMode, !SurfaceMode}.
Implicit Types (w : world) (e : event) (es : list event) (name : string).

(** C2: refinement, one step.  In a ready state the engine has a view, and
    after any click the specification covers, the view of the engine is
    the one the machine of the specification steps to from it. *)
Theorem deliver_refines_spec w e :
  ready w → covered e →
  ∃ v, view_state w = Some v ∧
       view_state (deliver e w) = Some (spec_step e v).
Proof.
  intros Hw He. rewrite deliver_simulates by done.
  destruct (view_state_ready w Hw) as [Hv|Hv]; rewrite Hv; eauto.
Qed.

(** C26: the clicks the specification does not cover are not refined.
    In a province view, a click on a feature whose name is one of the
    property names every object inherits is ignored by the handler, for
    which the name passes the test of line 243, while the machine of the
    specification, for which the name is not in the index, returns to the
    national view: the condition [covered] of the refinement is needed. *)
Theorem inherited_name_not_refined w name c :
  ready w → view_state w = Some (Province c) →
  name ∈ object_prototype_keys →
  deliver (FeatureClick name) w = w ∧
  spec_step (FeatureClick name) (Province c) = National ∧
  view_state (deliver (FeatureClick name) w)
    ≠ Some (spec_step (FeatureClick name) (Province c)).
Proof.
  intros Hw Hv Hn.
  assert (RegionNameIndex !! name = None) as Hi.
  { destruct (RegionNameIndex !! name) as [c'|] eqn:Hc; [|done].
    by apply RegionNameIndex_not_inherited in Hc. }
  assert (deliver (FeatureClick name) w = w) as Hd.
  { apply deliver_action_None; [apply Hw|]. unfold action.
    rewrite known_inherited by done.
    apply decide_False. intros ->. by vm_compute in Hi. }
  assert (spec_step (FeatureClick name) (Province c) = National) as Hs.
  { simpl. unfold spec_onFeatureClicked. by rewrite Hi. }
  split_and!; [done..|]. by rewrite Hd, Hs, Hv.
Qed.

End claims.

(** ** Witnesses *)

Lemma deliver_refines_spec_witness :
  ∃ v, view_state mounted = Some v ∧
       view_state (deliver (FeatureClick "江西省") mounted)
         = Some (spec_step (FeatureClick "江西省") v).
Proof.
  apply (deliver_refines_spec mounted (FeatureClick "江西省")); by_decide.
Defined.

Lemma inherited_name_not_refined_witness :
  deliver (FeatureClick "constructor")
    (deliver (FeatureClick "江西省") mounted)
    = deliver (FeatureClick "江西省") mounted.
Proof.
  refine (proj1 (inherited_name_not_refined
                   (deliver (FeatureClick "江西省") mounted)
                   "constructor" 360000 _ _ _));
    [by_decide | by_compute | by_decide].
Defined.
