(* ===== verification/Lifecycle.v ===== *)
(** * The life cycle of the component

    [App] (src/src/App.tsx, lines 12-270) creates the ref [echartsRef] with
    [useRef(null)] (line 13), renders one [div] that carries it (lines
    267-269) and registers its effect with [useEffect] and no dependency
    list (lines 235-265): the effect runs after every render, and the
    clean-up it returned runs before the next run and when the component
    is removed.  This file puts the effect and the clean-up of [Controller]
    in that schedule and proves what holds of every state the page can
    reach. *)

From S2P Require Import Prelude JsValue RegionIndex Options.
From S2P Require Import ChartSurface Controller ViewState.

Open Scope string_scope.
Open Scope list_scope.
Open Scope cmd_scope.

(** The page: whether [echartsRef.current] is the [div], whether the last
    run of the effect returned a clean-up that has not run yet, and the
    engine. *)
Record page : Type := Page {
  echartsRef : bool;
  cleanup_pending : bool;
  engine : world
}.

#[export] Instance page_eq_dec : EqDecision page.
Proof. solve_decision. Defined.

(** Before the first render: [useRef(null)], no effect has run. *)
Definition unmounted : page := Page false false start.

(** What happens to the page. *)
Inductive react_event : Type :=
| Render
| Unmount
| Click (e : event).

Section schedule.
Context `{!OptionMode, !SurfaceMode}.

(** The commit of the rendered [div]: the ref points to it. *)
Definition attach_ref : cmd page :=
  λ p, Page true (cleanup_pending p) (engine p).

(** The removal of the [div]: the ref is null again. *)
Definition detach_ref : cmd page :=
  λ p, Page false (cleanup_pending p) (engine p).

(** Run the clean-up of the last effect, if it returned one. *)
Definition run_cleanup : cmd page :=
  λ p,
    if cleanup_pending p then Page (echartsRef p) false (cleanup (engine p))
    else p.

(** Run the effect: it returns a clean-up exactly when it found the ref
    set. *)
Definition run_effect : cmd page :=
  λ p, Page (echartsRef p) (echartsRef p) (effect (echartsRef p) (engine p)).

(** A render of [App], the first or a later one. *)
Definition render : cmd page :=
  attach_ref ;; run_cleanup ;; run_effect.

(** The removal of [App] from the page. *)
Definition unmount : cmd page :=
  run_cleanup ;; detach_ref.

(** A click reaches the listeners of the chart, if there is one. *)
Definition click (e : event) : cmd page :=
  λ p, Page (echartsRef p) (cleanup_pending p) (deliver e (engine p)).

Definition page_step (ev : react_event) : cmd page :=
  match ev with
  | Render => render
  | Unmount => unmount
  | Click e => click e
  end.

(** The states of the page: the initial one and those a step leads to. *)
Inductive reachable : page → Prop :=
| reachable_unmounted : reachable unmounted
| reachable_step p ev : reachable p → reachable (page_step ev p).

End schedule.

(** The number of charts created and not yet disposed of, by the log. *)
Fixpoint live_charts (cs : list call) : Z :=
  match cs with
  | [] => 0
  | CallInit :: cs' => live_charts cs' + 1
  | CallDispose :: cs' => live_charts cs' - 1
  | _ :: cs' => live_charts cs'
  end.

(** What holds between two events: with a clean-up pending the ref is set
    and the engine is ready; without one there is no chart. *)
Definition page_ok (p : page) : Prop :=
  if cleanup_pending p then echartsRef p = true ∧ ready (engine p)
  else myChart (engine p) = None ∧ maps (engine p) ⊆ boundaries.

#[export] Instance page_ok_dec p : Decision (page_ok p).
Proof. unfold page_ok. destruct (cleanup_pending p); apply _. Defined.

(** The chart that renders the option [o] with the two listeners of the
    effect, and the worlds that show one of the two charts of the page. *)
Definition shown_chart (o : jsval) : chart :=
  Chart (Some o) [("click", ClickListener)] [("click", ZrClickListener)].

Definition shows (w : world) : Prop :=
  myChart w = Some (shown_chart chinaOption) ∨
  myChart w = Some (shown_chart jxOption) ∧ maps w !! "江西省" = Some jxJson.

(** The machine of the specification with its life cycle: [initialize]
    enters [National], [dispose] ends the controller. *)
Definition spec_page_step (ev : react_event) : cmd (option ViewState) :=
  match ev with
  | Render => λ _, Some National
  | Unmount => λ _, None
  | Click e => fmap (spec_step e)
  end.

(** The view of the page: the view of its chart, none without a chart. *)
Definition page_view (p : page) : option ViewState :=
  view_state (engine p).

(** An event the specification covers. *)
Definition covered_event (ev : react_event) : Prop :=
  match ev with
  | Click e => covered e
  | _ => True
  end.

#[export] Instance covered_event_dec ev : Decision (covered_event ev).
Proof. destruct ev; apply _. Defined.

(** The calls the effect makes, the calls the clean-up makes, and the calls
    the delivery of a click makes. *)
Definition effect_calls : list call :=
  [CallInit; CallRegisterMap "china" chinaJson; CallSetOption chinaOption;
   CallOn "click" ClickListener; CallZrOn "click" ZrClickListener].

Definition cleanup_calls : list call := [CallOff "click"; CallDispose].

Definition action_calls (e : event) : list call :=
  match action e with
  | Some (k, d, o) => [CallRegisterMap k d; CallSetOption o]
  | None => []
  end.

(** The calls a step of the page makes. *)
Definition step_calls (ev : react_event) (p : page) : list call :=
  match ev with
  | Render => (if cleanup_pending p then cleanup_calls else []) ++ effect_calls
  | Unmount => if cleanup_pending p then cleanup_calls else []
  | Click e => if cleanup_pending p then action_calls e else []
  end.

(** ** One step *)

Section steps.
Context `{!OptionMode, !SurfaceMode}.
Implicit Types (p : page) (ev : react_event) (e : event) (w : world).

(** After the clean-up, if one was pending, there is no chart and the
    registry holds only right datasets. *)
Lemma run_cleanup_ok p :
  page_ok p →
  cleanup_pending (run_cleanup p) = false ∧
  echartsRef (run_cleanup p) = echartsRef p ∧
  myChart (engine (run_cleanup p)) = None ∧
  maps (engine (run_cleanup p)) ⊆ boundaries.
Proof.
  unfold page_ok, run_cleanup. destruct (cleanup_pending p) eqn:Hp.
  - intros [_ (_ & _ & [Hm _] & _)].
    cbn [cleanup_pending echartsRef engine]. by rewrite cleanup_world.
  - by rewrite Hp.
Qed.

(** After a render the effect has run with the ref set: the engine is
    the one the effect builds on a page without a chart. *)
Lemma render_engine p :
  page_ok p →
  render p = Page true true (effect true (engine (run_cleanup p))).
Proof.
  intros Hp. unfold render, seq, run_effect, attach_ref, run_cleanup. simpl.
  by destruct (cleanup_pending p).
Qed.

Lemma render_ok p : page_ok p → page_ok (render p).
Proof.
  intros Hp. rewrite render_engine by done.
  destruct (run_cleanup_ok p Hp) as (_ & _ & Hc & Hm).
  split; [done|]. by apply effect_ready.
Qed.

Lemma unmount_ok p : page_ok p → page_ok (unmount p).
Proof.
  intros Hp. destruct (run_cleanup_ok p Hp) as (Hf & _ & Hc & Hm).
  unfold page_ok, unmount, seq, detach_ref. simpl. by rewrite Hf.
Qed.

Lemma click_ok p e : page_ok p → page_ok (click e p).
Proof.
  unfold page_ok, click. simpl. destruct (cleanup_pending p).
  - intros [? ?]. split; [done|]. by apply deliver_ready.
  - intros [Hc Hm]. by rewrite deliver_no_chart.
Qed.

Lemma page_step_ok p ev : page_ok p → page_ok (page_step ev p).
Proof. destruct ev; simpl; auto using render_ok, unmount_ok, click_ok. Qed.

Lemma reachable_ok p : reachable p → page_ok p.
Proof.
  induction 1 as [|p ev _ IH]; [|by apply page_step_ok].
  split; [done | apply map_empty_subseteq].
Qed.

(** The reachable states are the states that runs of events lead to. *)
Lemma reachable_run p :
  reachable p ↔ ∃ evs, p = run page_step evs unmounted.
Proof.
  split.
  - induction 1 as [|p ev _ [evs ->]]; [by exists []|].
    exists (evs ++ [ev]). by rewrite run_snoc.
  - intros [evs ->]. induction evs as [|ev evs IH] using rev_ind;
      [constructor|]. rewrite run_snoc. by constructor.
Qed.

(** The view of a page without a chart. *)
Lemma page_view_no_chart p : myChart (engine p) = None → page_view p = None.
Proof.
  intros Hc. unfold page_view, view_state, shown_map, current. by rewrite Hc.
Qed.

(** One event: the view of the page moves as the machine of the
    specification does. *)
Lemma page_step_simulates ev p :
  covered_event ev → page_ok p →
  page_view (page_step ev p) = spec_page_step ev (page_view p).
Proof.
  intros Hev Hp. destruct ev as [| |e]; simpl.
  - rewrite render_engine by done. unfold page_view. cbn [engine].
    by rewrite effect_world by apply (run_cleanup_ok p Hp).
  - apply page_view_no_chart, (run_cleanup_ok p Hp).
  - unfold page_ok in Hp. unfold page_view, click. cbn [engine].
    destruct (cleanup_pending p); destruct Hp as [? ?].
    + by apply deliver_simulates.
    + rewrite deliver_no_chart by done. fold (page_view p).
      by rewrite page_view_no_chart.
Qed.

End steps.

(** ** The log of calls *)

Lemma live_charts_app cs1 cs2 :
  live_charts (cs1 ++ cs2) = (live_charts cs1 + live_charts cs2)%Z.
Proof.
  induction cs1 as [|c cs1 IH]; [done|]. destruct c; simpl; lia.
Qed.

Lemma paired_from_None prev cs :
  paired_from None cs = true → paired_from prev cs = true.
Proof. by destruct cs as [|[] cs]. Qed.

Lemma paired_app cs1 cs2 :
  paired cs1 = true → paired cs2 = true → paired (cs1 ++ cs2) = true.
Proof.
  unfold paired. intros H1 H2. rewrite paired_from_app, H1. simpl.
  by apply paired_from_None.
Qed.

Lemma action_calls_paired e : paired (action_calls e) = true.
Proof.
  unfold action_calls. destruct (action e) as [[[k d] o]|] eqn:He; [|done].
  apply action_sound in He as (Hk & Ho & _). unfold paired. simpl.
  by rewrite bool_decide_eq_true_2.
Qed.

Lemma action_calls_live e : live_charts (action_calls e) = 0%Z.
Proof. unfold action_calls. by destruct (action e) as [[[k d] o]|]. Qed.

Lemma step_calls_paired ev p : paired (step_calls ev p) = true.
Proof.
  destruct ev as [| |e]; simpl; destruct (cleanup_pending p);
    auto using action_calls_paired.
Qed.

Section log.
Context `{!OptionMode, !SurfaceMode}.
Implicit Types (p : page) (ev : react_event).

Lemma run_cleanup_calls p :
  calls (engine (run_cleanup p)) =
    calls (engine p) ++ (if cleanup_pending p then cleanup_calls else []).
Proof.
  unfold run_cleanup. destruct (cleanup_pending p); cbn [engine].
  - by rewrite cleanup_world.
  - by rewrite app_nil_r.
Qed.

(** The log after a step is the log before it and the calls of the step. *)
Lemma page_step_calls p ev :
  page_ok p →
  calls (engine (page_step ev p)) = calls (engine p) ++ step_calls ev p.
Proof.
  intros Hp. destruct ev as [| |e]; cbn [page_step step_calls].
  - rewrite render_engine by done. cbn [engine].
    rewrite effect_world by apply (run_cleanup_ok p Hp). cbn [calls].
    by rewrite run_cleanup_calls, app_assoc.
  - apply run_cleanup_calls.
  - unfold page_ok in Hp. unfold click, action_calls. cbn [engine].
    destruct (cleanup_pending p); destruct Hp as [? Hr].
    + rewrite deliver_action by apply Hr.
      destruct (action e) as [[[k d] o]|]; [by rewrite block_world|].
      by rewrite app_nil_r.
    + rewrite deliver_no_chart by done. by rewrite app_nil_r.
Qed.

Lemma step_calls_live p ev :
  page_ok p →
  live_charts (step_calls ev p) =
    ((if cleanup_pending (page_step ev p) then 1 else 0)
     - (if cleanup_pending p then 1 else 0))%Z.
Proof.
  intros Hp. destruct ev as [| |e]; cbn [page_step step_calls].
  - rewrite render_engine by done. by destruct (cleanup_pending p).
  - destruct (run_cleanup_ok p Hp) as (Hf & _).
    unfold unmount, seq, detach_ref. cbn [cleanup_pending]. rewrite Hf.
    by destruct (cleanup_pending p).
  - unfold click. cbn [cleanup_pending].
    destruct (cleanup_pending p); [apply action_calls_live | done].
Qed.

End log.

(** ** Properties of the life cycle *)

Section lifecycle_properties.
Context `{!OptionMode, !SurfaceMode}.
Implicit Types (p : page) (ev : react_event) (e : event).

Lemma click_no_chart p e : myChart (engine p) = None → click e p = p.
Proof.
  intros Hc. unfold click. rewrite deliver_no_chart by done. by destruct p.
Qed.

Lemma run_clicks_no_chart p (es : list event) :
  myChart (engine p) = None → run page_step (Click <$> es) p = p.
Proof.
  intros Hc. induction es as [|e es IH]; [done|].
  rewrite fmap_cons, run_cons. cbn [page_step]. by rewrite click_no_chart.
Qed.

(** C3: the life cycle keeps its invariant.  In every state the page can
    reach, by renders, removals and clicks in any order: while a clean-up
    is pending the ref is set and the engine is ready for clicks; when
    none is pending there is no chart; and at all times the registry holds
    only right datasets and the chart draws only registered boundaries. *)
Theorem lifecycle_invariant p :
  reachable p →
  (cleanup_pending p = true → echartsRef p = true ∧ ready (engine p)) ∧
  (cleanup_pending p = false → myChart (engine p) = None) ∧
  maps (engine p) ⊆ boundaries ∧ drawable (engine p).
Proof.
  intros Hp%reachable_ok. unfold page_ok in Hp.
  destruct (cleanup_pending p); destruct Hp as [H1 H2].
  - split_and!; [done..| apply H2 | apply H2].
  - split_and!; [done..|]. unfold drawable, current. by rewrite H1.
Qed.

(** C17: the guard of the effect never fails.  Whatever happened before, a
    render leaves a chart that renders [chinaOption], ready for clicks,
    with a clean-up pending: the effect always finds the ref set, and its
    branch for a null ref is never taken. *)
Theorem render_always_mounts p :
  reachable p →
  cleanup_pending (render p) = true ∧
  ready (engine (render p)) ∧
  current (engine (render p)) = Some chinaOption.
Proof.
  intros Hp%reachable_ok. pose proof (render_ok p Hp) as Hr.
  rewrite render_engine in * by done. destruct Hr as [_ Hr].
  split_and!; [done..|]. cbn [engine].
  by rewrite effect_world by apply (run_cleanup_ok p Hp).
Qed.

(** C18: every render resets the view.  The effect has no dependency list,
    so a later render of [App], not only the first, disposes of the chart
    and creates a new one that shows the national map, also when the
    province was shown. *)
Theorem render_resets_view p :
  reachable p → page_view (render p) = Some National.
Proof. intros Hp%reachable_ok. by apply (page_step_simulates Render). Qed.

(** C19: removal releases the chart.  After [App] is removed there is no
    chart and no clean-up pending, and no click changes the page. *)
Theorem unmount_releases p (es : list event) :
  reachable p →
  myChart (engine (unmount p)) = None ∧
  cleanup_pending (unmount p) = false ∧
  run page_step (Click <$> es) (unmount p) = unmount p.
Proof.
  intros Hp%reachable_ok. destruct (run_cleanup_ok p Hp) as (Hf & _ & Hc & _).
  split_and!; [done..|]. by apply run_clicks_no_chart.
Qed.

(** C21: acquisition and release are paired.  In the log of every reachable
    state, the charts created and not yet disposed of are one while a
    clean-up is pending and none otherwise: no chart is created twice, none
    is left behind. *)
Theorem charts_balanced p :
  reachable p →
  live_charts (calls (engine p)) = (if cleanup_pending p then 1 else 0)%Z.
Proof.
  induction 1 as [|p ev Hp%reachable_ok IH]; [done|].
  rewrite page_step_calls, live_charts_app, IH, step_calls_live by done. lia.
Qed.

(** C22: ordering of calls.  In the log of every reachable state, every
    [setOption] comes right after the [registerMap] of the boundary that
    its [geo] component draws, with the dataset of that boundary: no option
    is ever applied before its boundary is registered. *)
Theorem lifecycle_calls_paired p :
  reachable p → paired (calls (engine p)) = true.
Proof.
  induction 1 as [|p ev Hp%reachable_ok IH]; [done|].
  rewrite page_step_calls by done.
  by apply paired_app, step_calls_paired.
Qed.

(** C1: refinement over the life cycle.  After any sequence of renders,
    removals and clicks the specification covers, the view of the page is
    the state of the machine of the specification run on the same events,
    [initialize] for a render and [dispose] for a removal. *)
Theorem lifecycle_refines_spec evs :
  Forall covered_event evs →
  page_view (run page_step evs unmounted) = run spec_page_step evs None.
Proof.
  intros Hevs.
  apply (run_simulation page_view spec_page_step page_ok covered_event);
    auto using page_step_ok, page_step_simulates.
  split; [done | apply map_empty_subseteq].
Qed.

End lifecycle_properties.

(** ** The two charts of the page *)

Section two_charts.
Context `{!OptionMode} `{!Replacing} `{!SurfaceMode}.
Implicit Types (p : page) (w : world).

Lemma shows_effect w : myChart w = None → shows (effect true w).
Proof. intros Hc. rewrite effect_world by done. by left. Qed.

Lemma shows_deliver w e : subscribed w → shows w → shows (deliver e w).
Proof.
  intros Hs Hw. destruct (action e) as [[[k d] o]|] eqn:He;
    [|by rewrite deliver_action_None].
  rewrite (deliver_action_Some w e k d o) by done.
  unfold shows. rewrite block_chart_replacing, block_world.
  cbn [maps]. destruct (action_cases e k d o He) as [[= -> -> ->]|[= -> -> ->]];
    [left|right; split; [|apply lookup_insert_eq]];
    destruct Hw as [->|[-> _]]; done.
Qed.

(** C30: the two charts.  When the engine replaces the option, the chart
    of every reachable page with a clean-up pending is one of two values:
    the national chart, or the chart of 江西省 with the boundary of the
    province registered under that name.  Both carry exactly the two
    listeners of the effect. *)
Theorem reachable_shows_two_charts p :
  reachable p → cleanup_pending p = true →
  myChart (engine p) = Some (shown_chart chinaOption) ∨
  myChart (engine p) = Some (shown_chart jxOption) ∧
    maps (engine p) !! "江西省" = Some jxJson.
Proof.
  induction 1 as [|p ev Hr IH]; [done|].
  pose proof (reachable_ok p Hr) as Hp. destruct ev as [| |e].
  - intros _. cbn [page_step]. rewrite render_engine by done.
    apply shows_effect, (run_cleanup_ok p Hp).
  - cbn [page_step]. destruct (run_cleanup_ok p Hp) as (Hf & _).
    unfold unmount, seq, detach_ref. simpl. by rewrite Hf.
  - cbn [page_step]. unfold click. cbn [cleanup_pending engine]. intros Hc.
    unfold page_ok in Hp. rewrite Hc in Hp.
    apply shows_deliver; [apply Hp | by apply IH].
Qed.

End two_charts.

(** ** Witnesses *)

(** A page that was rendered and then drilled down into the province. *)
Definition drilled_page : page :=
  page_step (Click (FeatureClick "江西省")) (page_step Render unmounted).

Lemma drilled_page_reachable : reachable drilled_page.
Proof. repeat constructor. Defined.

Lemma lifecycle_invariant_witness :
  maps (engine drilled_page) ⊆ boundaries ∧ drawable (engine drilled_page).
Proof.
  refine (proj2 (proj2 (lifecycle_invariant drilled_page _))).
  exact drilled_page_reachable.
Defined.

Lemma render_always_mounts_witness :
  current (engine (render drilled_page)) = Some chinaOption.
Proof.
  refine (proj2 (proj2 (render_always_mounts drilled_page _))).
  exact drilled_page_reachable.
Defined.

Lemma render_resets_view_witness :
  page_view drilled_page = Some (Province 360000) ∧
  page_view (render drilled_page) = Some National.
Proof.
  split; [by_compute|].
  exact (render_resets_view drilled_page drilled_page_reachable).
Defined.

Lemma unmount_releases_witness :
  run page_step (Click <$> [FeatureClick "江西省"; BackgroundClick])
    (unmount drilled_page) = unmount drilled_page.
Proof.
  refine (proj2 (proj2 (unmount_releases drilled_page _ _))).
  exact drilled_page_reachable.
Defined.

Lemma charts_balanced_witness :
  live_charts (calls (engine (render drilled_page))) = 1%Z.
Proof.
  exact (charts_balanced (page_step Render drilled_page)
           (reachable_step _ Render drilled_page_reachable)).
Defined.

Lemma lifecycle_calls_paired_witness :
  paired (calls (engine drilled_page)) = true.
Proof. exact (lifecycle_calls_paired drilled_page drilled_page_reachable). Defined.

Lemma lifecycle_refines_spec_witness :
  page_view (run page_step
               [Render; Click (FeatureClick "江西省"); Render; Unmount] unmounted)
    = run spec_page_step
        [Render; Click (FeatureClick "江西省"); Render; Unmount] None.
Proof. apply (lifecycle_refines_spec _). by_decide. Defined.

Lemma reachable_shows_two_charts_witness :
  myChart (engine drilled_page) = Some (shown_chart chinaOption) ∨
  myChart (engine drilled_page) = Some (shown_chart jxOption) ∧
    maps (engine drilled_page) !! "江西省" = Some jxJson.
Proof.
  exact (reachable_shows_two_charts drilled_page drilled_page_reachable
           eq_refl).
Defined.
