(* ===== verification/Adapter.v ===== *)
(** * Subscriptions: the engine's and the specification's

    The specification asks of the chart surface that a channel has
    exactly one handler, a later registration replacing an earlier one
    (section 4.2), and of the controller that [initialize] subscribes to
    both channels.  The program subscribes with [myChart.on] and
    [myChart.getZr().on] (src/src/App.tsx, lines 242 and 256); what
    these do on a channel that already has listeners is the engine's
    ([SurfaceMode]).  This file states the adapter of the specification,
    [onFeatureClick] and [onBackgroundClick], and [initialize] over it,
    and proves that every run of the effect the life cycle schedules is
    [initialize], whatever the engine does on a channel with listeners:
    the clean-up, by disposing of the chart, sees to it that the effect
    never meets one. *)

From S2P Require Import Prelude JsValue RegionIndex Options.
From S2P Require Import ChartSurface Controller ViewState Lifecycle.

Open Scope string_scope.
Open Scope list_scope.
Open Scope cmd_scope.

(** [onFeatureClick(handler)] of the specification. *)
Definition onFeatureClick (l : listener) : cmd world :=
  log (CallOn "click" l) ;;
  with_chart (λ c,
    Chart (chart_option c) (resubscribe "click" l (chart_on c)) (zr_on c)).

(** [onBackgroundClick(handler)] of the specification. *)
Definition onBackgroundClick (l : listener) : cmd world :=
  log (CallZrOn "click" l) ;;
  with_chart (λ c,
    Chart (chart_option c) (chart_on c) (resubscribe "click" l (zr_on c))).

Section adapter.
Context `{!OptionMode, !SurfaceMode}.
Implicit Types (w : world) (p : page) (c : chart).

(** [initialize()] of the specification, on a mounted surface. *)
Definition initialize : cmd world :=
  init ;;
  registerMap "china" chinaJson ;;
  setOption chinaOption ;;
  onFeatureClick ClickListener ;;
  onBackgroundClick ZrClickListener.

(** A render in which the effect is [initialize]. *)
Definition spec_render : cmd page :=
  attach_ref ;; run_cleanup ;;
  λ p, Page (echartsRef p) true (initialize (engine p)).

Lemma initialize_world w :
  myChart w = None →
  initialize w =
    World (<["china" := chinaJson]> (maps w))
      (Some (Chart (Some chinaOption)
               [("click", ClickListener)] [("click", ZrClickListener)]))
      (calls w ++ effect_calls).
Proof.
  destruct w as [m c cs]. simpl. intros ->.
  unfold initialize, seq, init, registerMap, setOption, onFeatureClick,
    onBackgroundClick, seq, log, with_chart, effect_calls. simpl.
  rewrite apply_option_first. by rewrite <-!app_assoc.
Qed.

Lemma effect_initialize w :
  myChart w = None → effect true w = initialize w.
Proof. intros Hc. by rewrite effect_world, initialize_world. Qed.

End adapter.

(** ** Properties of the subscriptions *)

Section adapter_properties.
Context `{!OptionMode, !SurfaceMode}.
Implicit Types (w : world) (p : page).

(** C15: the effect is [initialize].  Every run of the effect that the life
    cycle schedules, after the first render or a later one, leaves the
    page that [initialize] leaves over the adapter of the specification,
    whose subscriptions replace: the effect never meets a chart that
    already has listeners. *)
Theorem render_is_initialize p :
  reachable p → render p = spec_render p.
Proof.
  intros Hp%reachable_ok. rewrite render_engine by done.
  destruct (run_cleanup_ok p Hp) as (_ & _ & Hc & _).
  rewrite effect_initialize by done. unfold spec_render, seq.
  by destruct p as [r [] w].
Qed.

End adapter_properties.

(** ** Witnesses *)

(** The drilled page of a surface on which subscriptions add up. *)
Definition stacked_page : page :=
  @page_step replace_mode stacking_surface (Click (FeatureClick "江西省"))
    (@page_step replace_mode stacking_surface Render unmounted).

Lemma stacked_page_reachable :
  @reachable replace_mode stacking_surface stacked_page.
Proof. repeat constructor. Defined.

Lemma render_is_initialize_witness :
  @render replace_mode stacking_surface stacked_page
    = @spec_render replace_mode stacking_surface stacked_page.
Proof.
  exact (@render_is_initialize replace_mode stacking_surface stacked_page
           stacked_page_reachable).
Defined.
