(* ===== verification/Clicks.v ===== *)
(** * Clicks of the pointer

    The program subscribes one handler to the [click] event of the chart
    (src/src/App.tsx, line 242), which the engine raises for a click on a
    feature, and one to the [click] event of the canvas (line 256).  The
    specification calls the second one the handler of background clicks;
    the handler itself does not look at what was hit, and the canvas lies
    under the features too.  Whether a click on a feature also raises the
    event of the canvas, and which listener then runs first, is the
    engine's.  This file takes the three possibilities as [channel_order],
    turns what the pointer hits into the clicks the listeners receive, and
    proves what the user sees for each: with the canvas listener first the
    program is the state machine of the specification for every name; with
    the chart listener first the province is never shown. *)

From S2P Require Import Prelude JsValue RegionIndex Options.
From S2P Require Import ChartSurface Controller ViewState Lifecycle.

Open Scope string_scope.
Open Scope list_scope.
Open Scope cmd_scope.

(** What the pointer hits: a rendered feature, with its display name, or
    the background. *)
Inductive hit : Type :=
| OnFeature (name : string)
| OnBackground.

#[export] Instance hit_eq_dec : EqDecision hit.
Proof. solve_decision. Defined.

(** What a click on a feature raises: the event of the chart only, or
    also the event of the canvas, after it or before it. *)
Inductive channel_order : Set := Exclusive | ChartFirst | CanvasFirst.

#[export] Instance channel_order_eq_dec : EqDecision channel_order.
Proof. solve_decision. Defined.

(** The clicks the listeners receive for one click of the pointer, in
    order. *)
Definition raised (o : channel_order) (h : hit) : list event :=
  match h with
  | OnBackground => [BackgroundClick]
  | OnFeature name =>
      match o with
      | Exclusive => [FeatureClick name]
      | ChartFirst => [FeatureClick name; BackgroundClick]
      | CanvasFirst => [BackgroundClick; FeatureClick name]
      end
  end.

(** What the user does to the page. *)
Inductive user_event : Type :=
| UserRender
| UserUnmount
| UserClick (h : hit).

(** The events of the page for one event of the user. *)
Definition expand (o : channel_order) (ev : user_event) : list react_event :=
  match ev with
  | UserRender => [Render]
  | UserUnmount => [Unmount]
  | UserClick h => Click <$> raised o h
  end.

(** The state machine of the specification as section 4.1 draws it and
    as its testable properties 2 and 3 use it: a click on the drill-down
    target leads to its province, every other click to the national
    view. *)
Definition machine_step (h : hit) : cmd ViewState :=
  λ _,
    match h with
    | OnFeature name =>
        match RegionNameIndex !! name with
        | Some code =>
            if decide (name = drilldown_target) then Province code
            else National
        | None => National
        end
    | OnBackground => National
    end.

(** That machine with its life cycle. *)
Definition machine_user_step (ev : user_event) : cmd (option ViewState) :=
  match ev with
  | UserRender => λ _, Some National
  | UserUnmount => λ _, None
  | UserClick h => fmap (machine_step h)
  end.

(** A click of the user, as opposed to a render or a removal. *)
Definition is_user_click (ev : user_event) : Prop :=
  match ev with
  | UserClick _ => True
  | _ => False
  end.

(** What to click on to bring up a view. *)
Definition target_hit (v : ViewState) : hit :=
  match v with
  | National => OnBackground
  | Province _ => OnFeature drilldown_target
  end.

Section pointer.
Context `{!OptionMode, !SurfaceMode}.
Implicit Types (w : world) (p : page) (h : hit) (o : channel_order).

(** One click of the pointer, on the engine and on the page. *)
Definition pointer_click o h : cmd world := run deliver (raised o h).

Definition user_step o (ev : user_event) : cmd page :=
  run page_step (expand o ev).

(** ** Clicks on the engine *)

Lemma pointer_click_ready o h w : ready w → ready (pointer_click o h w).
Proof. apply run_ready. Qed.

Lemma view_after_background w :
  subscribed w → view_state (deliver BackgroundClick w) = Some National.
Proof. intros Hs. by rewrite view_state_deliver. Qed.

Lemma view_after_feature w name :
  subscribed w →
  view_state (deliver (FeatureClick name) w) =
    if decide (name = "江西省") then Some (Province 360000)
    else if known name then view_state w else Some National.
Proof.
  intros Hs. rewrite view_state_deliver by done. unfold action.
  destruct (decide (name = "江西省")) as [->|]; [by_compute|].
  by destruct (known name).
Qed.

Lemma machine_step_feature name v :
  machine_step (OnFeature name) v =
    if decide (name = "江西省") then Province 360000 else National.
Proof.
  unfold machine_step, drilldown_target.
  destruct (decide (name = "江西省")) as [->|]; [done|].
  by destruct (RegionNameIndex !! name).
Qed.

(** The deliveries one click of the pointer amounts to. *)
Lemma pointer_click_background o w :
  pointer_click o OnBackground w = deliver BackgroundClick w.
Proof. done. Qed.

Lemma pointer_click_exclusive w name :
  pointer_click Exclusive (OnFeature name) w = deliver (FeatureClick name) w.
Proof. done. Qed.

Lemma pointer_click_chart_first w name :
  pointer_click ChartFirst (OnFeature name) w
    = deliver BackgroundClick (deliver (FeatureClick name) w).
Proof. done. Qed.

Lemma pointer_click_canvas_first w name :
  pointer_click CanvasFirst (OnFeature name) w
    = deliver (FeatureClick name) (deliver BackgroundClick w).
Proof. done. Qed.

(** With the canvas listener first, one click of the pointer moves the
    view as the machine moves, whatever the name of the feature. *)
Lemma canvas_first_simulates w h :
  ready w →
  view_state (pointer_click CanvasFirst h w)
    = machine_step h <$> view_state w.
Proof.
  intros Hw. pose proof (deliver_ready w BackgroundClick Hw) as Hw'.
  destruct (view_state_ready w Hw) as [-> | ->]; destruct h as [name|];
    cbn [fmap option_fmap option_map];
    rewrite ?machine_step_feature, ?pointer_click_canvas_first,
      ?pointer_click_background, ?view_after_feature, ?view_after_background
      by (apply Hw || apply Hw'); try done.
  all: by destruct (decide (name = "江西省")), (known name).
Qed.

(** With the chart listener first, every click of the pointer ends on
    the national view. *)
Lemma chart_first_resets w h :
  ready w → view_state (pointer_click ChartFirst h w) = Some National.
Proof.
  intros Hw. destruct h as [name|];
    rewrite ?pointer_click_chart_first, ?pointer_click_background;
    apply view_after_background.
  - apply (deliver_ready w (FeatureClick name) Hw).
  - apply Hw.
Qed.

Lemma run_deliver_no_chart (es : list event) w :
  myChart w = None → run deliver es w = w.
Proof.
  intros Hc. induction es as [|e es IH]; [done|].
  by rewrite run_cons, deliver_no_chart.
Qed.

(** The drill-down works unless the chart listener runs first. *)
Lemma drilldown_view o w :
  o ≠ ChartFirst → ready w →
  view_state (pointer_click o (OnFeature "江西省") w)
    = Some (Province 360000).
Proof.
  intros Ho Hw. pose proof (deliver_ready w BackgroundClick Hw) as Hw'.
  destruct o; [|done|].
  - rewrite pointer_click_exclusive. by rewrite view_after_feature by apply Hw.
  - rewrite pointer_click_canvas_first.
    by rewrite view_after_feature by apply Hw'.
Qed.

(** The view after clicks is that of the last click that was not
    ignored. *)
Lemma view_state_run (es : list event) w :
  ready w →
  view_state (run deliver es w) =
    from_option (λ a, view_of_map a.1.1) (view_state w)
      (last (omap action es)).
Proof.
  intros Hw. induction es as [|e es IH] using rev_ind; [done|].
  rewrite run_snoc, omap_app, view_state_deliver by by apply run_ready.
  cbn [omap list_omap]. destruct (action e) as [[[k d] o]|].
  - by rewrite last_snoc.
  - by rewrite app_nil_r.
Qed.

(** The calls of one delivery. *)
Lemma deliver_calls (e : event) w :
  subscribed w → calls (deliver e w) = calls w ++ action_calls e.
Proof.
  intros Hs. rewrite deliver_action by done. unfold action_calls.
  destruct (action e) as [[[k d] o]|]; [by rewrite block_world|].
  by rewrite app_nil_r.
Qed.

Lemma run_deliver_calls (es : list event) w :
  ready w → calls (run deliver es w) = calls w ++ (es ≫= action_calls).
Proof.
  revert w. induction es as [|e es IH]; intros w Hw.
  { by rewrite app_nil_r. }
  rewrite run_cons, IH, deliver_calls by (by apply deliver_ready || apply Hw).
  by rewrite <-app_assoc.
Qed.

(** ** Clicks on the page *)

Lemma run_clicks (es : list event) p :
  run page_step (Click <$> es) p =
    Page (echartsRef p) (cleanup_pending p) (run deliver es (engine p)).
Proof.
  revert p. induction es as [|e es IH]; intros p; [by destruct p|].
  by rewrite fmap_cons, !run_cons, IH.
Qed.

Lemma user_click o h p :
  user_step o (UserClick h) p =
    Page (echartsRef p) (cleanup_pending p) (pointer_click o h (engine p)).
Proof. apply run_clicks. Qed.

Lemma user_step_ok o ev p : page_ok p → page_ok (user_step o ev p).
Proof. apply run_invariant. intros e q. apply page_step_ok. Qed.

(** The view of the page after a click of the pointer. *)
Lemma page_view_user_click o h p :
  page_ok p →
  page_view (user_step o (UserClick h) p) =
    if cleanup_pending p then view_state (pointer_click o h (engine p))
    else None.
Proof.
  intros Hp. rewrite user_click. unfold page_view. cbn [engine].
  unfold page_ok in Hp. destruct (cleanup_pending p); [done|].
  destruct Hp as [Hc _]. unfold pointer_click.
  rewrite run_deliver_no_chart by done. by apply page_view_no_chart.
Qed.

Lemma page_view_ok p :
  page_ok p →
  page_view p = if cleanup_pending p then page_view p else None.
Proof.
  unfold page_ok. destruct (cleanup_pending p); [done|].
  intros [Hc _]. by apply page_view_no_chart.
Qed.

(** With the canvas listener first, one event of the user moves the view
    of the page as the machine moves. *)
Lemma user_step_simulates ev p :
  page_ok p →
  page_view (user_step CanvasFirst ev p)
    = machine_user_step ev (page_view p).
Proof.
  intros Hp. destruct ev as [| |h].
  - by apply (page_step_simulates Render).
  - by apply (page_step_simulates Unmount).
  - rewrite page_view_user_click, (page_view_ok p) by done.
    unfold page_ok in Hp. destruct (cleanup_pending p); [|done].
    apply canvas_first_simulates, Hp.
Qed.

End pointer.

(** ** Properties of the clicks of the pointer *)

Section pointer_properties.
Context `{!OptionMode, !SurfaceMode}.
Implicit Types (w : world) (p : page) (h : hit) (o : channel_order).

(** C11: with the canvas listener first the program is the state machine
    of the specification.  If a click on a feature raises the event of
    the canvas before the event of the chart, then after any sequence of
    renders, removals and clicks of the pointer, on features of any
    name, the view of the page is the state of the machine: the province
    after a click on 江西省, the national view after any other click. *)
Theorem canvas_first_refines_machine (evs : list user_event) :
  page_view (run (user_step CanvasFirst) evs unmounted)
    = run machine_user_step evs None.
Proof.
  apply (run_simulation page_view machine_user_step page_ok (λ _, True));
    auto using user_step_ok, user_step_simulates.
  - by apply Forall_true.
  - split; [done | apply map_empty_subseteq].
Qed.

(** C12: with the chart listener first the province is never shown.  If
    a click on a feature raises the event of the chart and then the event
    of the canvas, the reset of the canvas handler undoes every
    drill-down within the same click: whatever the user does, the page
    shows the national view or nothing. *)
Theorem chart_first_province_unreachable (evs : list user_event) :
  let p := run (user_step ChartFirst) evs unmounted in
  page_ok p ∧ (page_view p = None ∨ page_view p = Some National).
Proof.
  apply (run_invariant
    (λ p, page_ok p ∧ (page_view p = None ∨ page_view p = Some National)));
    [|by split; [split; [|apply map_empty_subseteq]|left]].
  intros ev p [Hp _]. split; [by apply user_step_ok|].
  destruct ev as [| |h].
  - right. by apply (page_step_simulates Render).
  - left. by apply (page_step_simulates Unmount).
  - rewrite page_view_user_click by done. unfold page_ok in Hp.
    destruct (cleanup_pending p); [right|by left].
    apply chart_first_resets, Hp.
Qed.

(** C16: every view stays within reach.  Unless the chart listener runs
    first, from every state the page can reach the user can bring up the
    national view and the province view by at most two events, and by
    clicks alone while the page has its chart: no sequence of events
    leaves the page stuck in a view. *)
Theorem view_always_reachable o p v :
  o ≠ ChartFirst → reachable p →
  v = National ∨ v = Province 360000 →
  ∃ evs : list user_event,
    (length evs ≤ 2)%nat ∧
    (cleanup_pending p = true → Forall is_user_click evs) ∧
    page_view (run (user_step o) evs p) = Some v.
Proof.
  intros Ho Hp%reachable_ok Hv. destruct (cleanup_pending p) eqn:Hc.
  - exists [UserClick (target_hit v)]. split_and!; [simpl; lia|by repeat constructor|].
    rewrite run_cons, run_nil, page_view_user_click, Hc by done.
    unfold page_ok in Hp. rewrite Hc in Hp. destruct Hp as [_ Hw].
    destruct Hv as [-> | ->]; cbn [target_hit].
    + rewrite pointer_click_background. apply view_after_background, Hw.
    + by apply drilldown_view.
  - exists (UserRender :: if decide (v = National) then []
                          else [UserClick (target_hit v)]).
    split_and!; [case_decide; simpl; lia|done|].
    rewrite run_cons. change (user_step o UserRender p) with (render p).
    destruct Hv as [-> | ->]; cbn [decide_rel target_hit];
      [by apply (page_step_simulates Render)|].
    rewrite decide_False, run_cons, run_nil by done.
    rewrite page_view_user_click by by apply render_ok.
    rewrite render_engine by done. cbn [cleanup_pending engine].
    apply drilldown_view; [done|].
    by apply effect_ready; apply (run_cleanup_ok p Hp).
Qed.

(** C28: testable property 2, with the canvas listener first.  A click on
    a feature whose name passes the handler's test and is not 江西省
    re-applies the national configuration, by one [registerMap] and one
    [setOption], and ends on the national view: the reset is the canvas
    handler's, the chart handler returns early. *)
Theorem canvas_first_reapplies_national w name :
  ready w → known name = true → name ≠ "江西省" →
  view_state (pointer_click CanvasFirst (OnFeature name) w) = Some National ∧
  calls_of (pointer_click CanvasFirst (OnFeature name)) w =
    [CallRegisterMap "china" chinaJson; CallSetOption chinaOption].
Proof.
  intros Hw Hk Hn. pose proof (deliver_ready w BackgroundClick Hw) as Hw'.
  unfold calls_of. rewrite pointer_click_canvas_first.
  rewrite (deliver_action_None _ (FeatureClick name)), view_after_background
    by (apply Hw || apply Hw' || by unfold action; rewrite Hk, decide_False).
  split; [done|]. apply (deliver_block w BackgroundClick); [apply Hw|done..].
Qed.

(** C27: the view depends on the last effective click only.  After any
    sequence of clicks delivered to the listeners, the view is the one
    the last click that was not ignored leads to, and the view before
    the clicks if all were ignored. *)
Theorem view_after_clicks (es : list event) w :
  ready w →
  view_state (run deliver es w) =
    from_option (λ a, view_of_map a.1.1) (view_state w)
      (last (omap action es)).
Proof. apply view_state_run. Qed.

(** C31: the log of calls of any sequence of clicks.  Each click delivered
    to a ready engine adds to the log exactly the calls of its step: for
    a click on 江西省 the registration of the province and [jxOption],
    for a click that is reset the registration of the nation and
    [chinaOption], for an ignored click nothing; every click fires its
    handler once, and no other call is ever made. *)
Theorem clicks_log (es : list event) w :
  ready w → calls (run deliver es w) = calls w ++ (es ≫= action_calls).
Proof. apply run_deliver_calls. Qed.

End pointer_properties.

(** ** Witnesses *)

Lemma view_always_reachable_witness :
  ∃ evs : list user_event,
    (length evs ≤ 2)%nat ∧
    (cleanup_pending drilled_page = true → Forall is_user_click evs) ∧
    page_view (run (user_step CanvasFirst) evs drilled_page) = Some National.
Proof.
  apply (view_always_reachable CanvasFirst drilled_page);
    [done | exact drilled_page_reachable | by left].
Defined.

Lemma canvas_first_reapplies_national_witness :
  view_state (pointer_click CanvasFirst (OnFeature "安徽省")
                (deliver (FeatureClick "江西省") mounted))
    = Some National.
Proof.
  refine (proj1 (canvas_first_reapplies_national
                   (deliver (FeatureClick "江西省") mounted) "安徽省" _ _ _));
    [by_decide | by_compute | done].
Defined.

Lemma view_after_clicks_witness :
  view_state (run deliver
                [FeatureClick "江西省"; BackgroundClick; FeatureClick "安徽省"]
                mounted)
    = Some National.
Proof.
  exact (view_after_clicks
           [FeatureClick "江西省"; BackgroundClick; FeatureClick "安徽省"]
           mounted ltac:(by_decide)).
Defined.

Lemma clicks_log_witness :
  calls (run deliver [FeatureClick "安徽省"; FeatureClick "江西省"] mounted)
    = calls mounted ++
      [CallRegisterMap "江西省" jxJson; CallSetOption jxOption].
Proof.
  exact (clicks_log [FeatureClick "安徽省"; FeatureClick "江西省"] mounted
           ltac:(by_decide)).
Defined.
