(* ===== verification/Failure.v ===== *)
(** * Calls that throw

    The calls the program makes to the engine can throw: the
    specification names a malformed boundary dataset at registration
    (section 7).  Neither the effect nor the handlers nor the clean-up
    catch anything (src/src/App.tsx, lines 236-263): a call that throws
    ends the function that made it, and an effect that throws returns no
    clean-up.  This file runs the same statements, in the same order, as
    commands that may throw, [throws] telling which calls do, and proves
    what a failure leaves behind: a handler that fails leaves the view as
    it was and the engine ready; an effect that fails after [init] leaves
    a chart that nothing will ever dispose of. *)

From S2P Require Import Prelude JsValue RegionIndex Options.
From S2P Require Import ChartSurface Controller ViewState Lifecycle.

Open Scope string_scope.
Open Scope list_scope.
Open Scope cmd_scope.

Section throwing.
Context `{!OptionMode, !SurfaceMode}.
Context (throws : call → bool).
Implicit Types (w : world) (p : page) (e : event) (name : string).

(** The call [c], whose effect on the engine is [op]: it throws, and
    nothing has happened, or it returns. *)
Definition attempt (c : call) (op : cmd world) : fcmd world :=
  λ w, if throws c then (w, Thrown) else (op w, Returned).

(** The handler of the chart's [click] event (lines 242-254). *)
Definition try_on_click (params_name : string) : fcmd world :=
  if known params_name then
    if bool_decide (params_name ≠ "江西省") then fskip
    else (attempt (CallRegisterMap params_name jxJson)
            (registerMap params_name jxJson) ;;;
          attempt (CallSetOption jxOption) (setOption jxOption))
  else (attempt (CallRegisterMap "china" chinaJson)
          (registerMap "china" chinaJson) ;;;
        attempt (CallSetOption chinaOption) (setOption chinaOption)).

(** The handler of the canvas's [click] event (lines 256-259). *)
Definition try_on_zr_click : fcmd world :=
  attempt (CallRegisterMap "china" chinaJson)
    (registerMap "china" chinaJson) ;;;
  attempt (CallSetOption chinaOption) (setOption chinaOption).

Definition try_handle (l : listener) (params_name : string) : fcmd world :=
  match l with
  | ClickListener => try_on_click params_name
  | ZrClickListener => try_on_zr_click
  end.

(** The listeners called one after the other: one that throws ends the
    delivery. *)
Fixpoint try_notify (ls : list listener) (arg : string) : fcmd world :=
  match ls with
  | [] => fskip
  | l :: ls' => (try_handle l arg ;;; try_notify ls' arg)
  end.

(** The delivery of a click. *)
Definition try_deliver (e : event) : fcmd world :=
  λ w,
    match myChart w with
    | None => (w, Returned)
    | Some c =>
        match e with
        | FeatureClick name =>
            try_notify (listeners "click" (chart_on c)) name w
        | BackgroundClick =>
            try_notify (listeners "click" (zr_on c)) "" w
        end
    end.

(** The function given to [useEffect] (lines 236-259). *)
Definition try_effect (echartsRef_current : bool) : fcmd world :=
  if echartsRef_current then
    attempt CallInit init ;;;
    attempt (CallRegisterMap "china" chinaJson)
      (registerMap "china" chinaJson) ;;;
    attempt (CallSetOption chinaOption) (setOption chinaOption) ;;;
    attempt (CallOn "click" ClickListener) (on "click" ClickListener) ;;;
    attempt (CallZrOn "click" ZrClickListener)
      (getZr_on "click" ZrClickListener)
  else fskip.

(** The clean-up (lines 260-263). *)
Definition try_cleanup : fcmd world :=
  attempt (CallOff "click") (off "click") ;;;
  attempt CallDispose dispose.

(** The run of the effect on the page: a clean-up is pending when the
    effect found the ref set and returned. *)
Definition try_run_effect : cmd page :=
  λ p,
    let r := try_effect (echartsRef p) (engine p) in
    Page (echartsRef p) (echartsRef p && bool_decide (r.2 = Returned)) r.1.

(** A render in which the calls of the effect may throw. *)
Definition try_render : cmd page :=
  attach_ref ;; run_cleanup ;; try_run_effect.

End throwing.

(** ** Without faults *)

Section no_fault.
Context `{!OptionMode, !SurfaceMode}.
Implicit Types (w : world) (e : event) (name : string).

(** No call throws. *)
Definition never : call → bool := λ _, false.

Lemma try_handle_never l name w :
  try_handle never l name w = (handle l name w, Returned).
Proof.
  destruct l; [|done]. unfold try_handle, try_on_click, handle, on_click.
  destruct (known name); [|done]. by case_bool_decide.
Qed.

Lemma try_notify_never ls name w :
  try_notify never ls name w = (notify handle ls name w, Returned).
Proof.
  revert w. induction ls as [|l ls IH]; intros w; [done|].
  cbn [try_notify]. by rewrite (fseq_returned _ _ _ _ (try_handle_never _ _ _)).
Qed.

Lemma try_deliver_never e w :
  try_deliver never e w = (deliver e w, Returned).
Proof.
  unfold try_deliver, deliver, dispatch.
  destruct (myChart w) as [c|]; [|done].
  destruct e; apply try_notify_never.
Qed.

End no_fault.

(** ** What a failure leaves *)

Section faults.
Context `{!OptionMode, !SurfaceMode}.
Context (throws : call → bool).
Implicit Types (w : world) (p : page) (e : event) (name : string).
Implicit Types (k : string) (d : dataset) (o : jsval).

(** The block [registerMap(k, d); setOption(o)] when its calls may
    throw. *)
Definition try_block k d o : fcmd world :=
  attempt throws (CallRegisterMap k d) (registerMap k d) ;;;
  attempt throws (CallSetOption o) (setOption o).

Lemma try_block_cases k d o w :
  try_block k d o w =
    if throws (CallRegisterMap k d) then (w, Thrown)
    else if throws (CallSetOption o) then (registerMap k d w, Thrown)
    else ((registerMap k d ;; setOption o) w, Returned).
Proof.
  unfold try_block, fseq, attempt.
  by destruct (throws (CallRegisterMap k d)), (throws (CallSetOption o)).
Qed.

Lemma listeners_single ev (l : listener) : listeners ev [(ev, l)] = [l].
Proof. unfold listeners. by rewrite filter_cons_True. Qed.

(** Every delivery is the block [action] gives, or nothing. *)
Lemma try_deliver_action w e :
  subscribed w →
  try_deliver throws e w =
    match action e with
    | Some (k, d, o) => try_block k d o w
    | None => (w, Returned)
    end.
Proof.
  intros [Hc Hz]. unfold try_deliver.
  destruct (myChart w) as [c|]; simplify_eq/=. rewrite Hc, Hz.
  destruct e as [name|]; rewrite listeners_single; cbn [action try_notify];
    rewrite fseq_fskip_r; [|done].
  unfold try_handle, try_on_click, action.
  destruct (known name); [|done].
  destruct (decide (name = "江西省")) as [->|]; [done|].
  by rewrite bool_decide_eq_true_2.
Qed.

(** The registration of a right dataset keeps the engine ready, and the
    chart as it is. *)
Lemma registerMap_ready w k d :
  boundaries !! k = Some d → ready w →
  ready (registerMap k d w) ∧ myChart (registerMap k d w) = myChart w.
Proof.
  intros Hk (Hs & Hv & [Hm Hc] & Hd). split; [|done].
  split_and!; [done..|split|].
  - by apply insert_subseteq_l.
  - cbn [registerMap maps].
    destruct (decide (k = "china")) as [->|]; [|by rewrite lookup_insert_ne].
    rewrite lookup_insert_eq. by rewrite <-Hk.
  - eapply Forall_impl; [exact Hd|]. intros k' Hk'. cbn [registerMap maps].
    rewrite lookup_insert_is_Some. destruct (decide (k = k')); auto.
Qed.

(** An effect in which a call after [init] throws has thrown, and has
    left a chart. *)
Lemma try_effect_thrown w :
  throws CallInit = false →
  Exists (λ c, throws c = true) (tail effect_calls) →
  (try_effect throws true w).2 = Thrown ∧
  is_Some (myChart (try_effect throws true w).1).
Proof.
  intros Hi Hex. unfold effect_calls in Hex. cbn [tail] in Hex.
  rewrite !Exists_cons, Exists_nil in Hex.
  unfold try_effect, fseq, attempt. rewrite Hi.
  repeat match goal with
         | |- context [throws ?c] => destruct (throws c) eqn:?
         end; try (split; [done | by eexists]).
  destruct Hex as [?|[?|[?|[?|[]]]]]; congruence.
Qed.

Lemma attach_cleanup_ref p : echartsRef (run_cleanup (attach_ref p)) = true.
Proof. unfold run_cleanup, attach_ref. simpl. by destruct (cleanup_pending p). Qed.

End faults.

(** ** Properties of the failures *)

Section failure_properties.
Context `{!OptionMode, !SurfaceMode}.
Implicit Types (w : world) (p : page) (e : event) (throws : call → bool).

(** Without faults the commands that may throw are the program: run
    with calls that never throw, the effect, the clean-up and the
    delivery of a click return, and leave the engine the program of
    [Controller] leaves. *)
Theorem no_fault_is_program (b : bool) e w :
  try_effect never b w = (effect b w, Returned) ∧
  try_cleanup never w = (cleanup w, Returned) ∧
  try_deliver never e w = (deliver e w, Returned).
Proof. split_and!; [by destruct b | done | apply try_deliver_never]. Qed.

(** C14: a click that fails changes no view.  Whatever calls throw, the
    delivery of a click to a ready engine leaves it ready, and when a
    call has thrown the chart is the one before the click: the view
    changes only with a [setOption] that returns.  This rests on the
    reading of [attempt], in which a call that throws leaves the engine
    as it was. *)
Theorem failed_click_keeps_chart throws w e :
  ready w →
  ready (try_deliver throws e w).1 ∧
  ((try_deliver throws e w).2 = Thrown →
   myChart (try_deliver throws e w).1 = myChart w).
Proof.
  intros Hw. rewrite try_deliver_action by apply Hw.
  destruct (action e) as [[[k d] o]|] eqn:He; [|done].
  apply action_sound in He as (Hk & Ho & Hr). rewrite try_block_cases.
  destruct (throws (CallRegisterMap k d)); [done|].
  destruct (throws (CallSetOption o)); cbn [fst snd].
  - destruct (registerMap_ready w k d Hk Hw). by split.
  - split; [by apply block_ready | done].
Qed.

(** C13: an effect that fails leaks the chart.  If a call of the effect
    after [init] throws, the effect returns no clean-up: the render
    leaves a chart with no clean-up pending, a state the page never
    reaches otherwise, and the removal of the component, which runs
    only pending clean-ups, leaves that chart in place. *)
Theorem effect_fault_leaks throws p :
  throws CallInit = false →
  Exists (λ c, throws c = true) (tail effect_calls) →
  let p' := try_render throws p in
  cleanup_pending p' = false ∧
  is_Some (myChart (engine p')) ∧
  ¬ page_ok p' ∧
  is_Some (myChart (engine (unmount p'))).
Proof.
  intros Hi Hex p'. subst p'. unfold try_render, seq, try_run_effect.
  rewrite attach_cleanup_ref.
  destruct (try_effect_thrown throws
              (engine (run_cleanup (attach_ref p))) Hi Hex) as [Ho Hc].
  destruct (try_effect throws true _) as [w' out]. simpl in Ho, Hc.
  subst out. split_and!; [done..| |done].
  intros [Hn _]. simpl in Hn. rewrite Hn in Hc. by destruct Hc.
Qed.

End failure_properties.

(** ** Witnesses *)

(** The application of [chinaOption] throws. *)
Definition setOption_china_throws : call → bool :=
  λ c, bool_decide (c = CallSetOption chinaOption).

Lemma failed_click_keeps_chart_witness :
  ready (try_deliver setOption_china_throws BackgroundClick
           (deliver (FeatureClick "江西省") mounted)).1.
Proof.
  refine (proj1 (failed_click_keeps_chart setOption_china_throws
                   (deliver (FeatureClick "江西省") mounted)
                   BackgroundClick _)).
  by_decide.
Defined.

Lemma effect_fault_leaks_witness :
  is_Some (myChart (engine (unmount
    (try_render setOption_china_throws unmounted)))).
Proof.
  refine (proj2 (proj2 (proj2 (effect_fault_leaks setOption_china_throws
                                 unmounted _ _))));
    [by_compute | by_decide].
Defined.
